(** * Leave entitlement and permit review of the permisos backend

    A shallow embedding of [backend/server.py]: the entitlement
    computation [calculate_days_available], the balance check of
    [create_permit] and the status update of [review_permit], the reading
    handlers [get_permits] and [get_teacher_days] and the notifications,
    followed by the properties of the specification that concern them and by
    further properties of the handlers. *)

From Stdlib Require Import ZArith QArith Qround List String Bool Lia.
From Stdlib Require Import DecimalString Permutation.
Import ListNotations.

Open Scope Z_scope.

(** ** Data model *)

Inductive UserRole := ADMIN | TEACHER.

Inductive ContractType := FULL_TIME | PART_TIME | HOURLY.

Inductive PermitType := VACATION_57 | ECONOMIC_62.

Inductive PermitStatus := PENDING | APPROVED | REJECTED.

Definition UserRole_eqb (a b : UserRole) : bool :=
  match a, b with
  | ADMIN, ADMIN | TEACHER, TEACHER => true
  | _, _ => false
  end.

Definition PermitType_eqb (a b : PermitType) : bool :=
  match a, b with
  | VACATION_57, VACATION_57 | ECONOMIC_62, ECONOMIC_62 => true
  | _, _ => false
  end.

Definition PermitStatus_eqb (a b : PermitStatus) : bool :=
  match a, b with
  | PENDING, PENDING | APPROVED, APPROVED | REJECTED, REJECTED => true
  | _, _ => false
  end.

(** An [instant] is a number of microseconds since the epoch, in UTC; the
    clock the handlers read with [datetime.now(timezone.utc)] gives one.  A
    [datetime] is either aware, and then it stands for an instant, or naive:
    a wall-clock reading, in microseconds, without an offset.  Both kinds
    pass the validation of the models ([Optional[datetime]], [datetime]); the
    seed script writes aware hire dates, the test suite sends naive permit
    dates.  A [timedelta] is a signed number of microseconds; Python keeps it
    normalised with [0 <= seconds < 86400] and [0 <= microseconds < 10^6],
    so that its [days] attribute is the floor of the quotient by the length
    of a day (it is [-1] for a delta of minus one second). *)
Definition instant := Z.

Inductive datetime :=
| aware (utc : instant)
| naive (wall : Z).

Definition timedelta := Z.

Definition microseconds_per_day : Z := 86400 * 1000000.

Definition days (d : timedelta) : Z := d / microseconds_per_day.

Record User := {
  user_id : string;
  user_name : string;
  role : UserRole;
  contract_type : option ContractType;
  hire_date : option datetime
}.

Record Permit := {
  permit_id : string;
  teacher_id : string;
  teacher_name : string;
  permit_type : PermitType;
  start_date : datetime;
  end_date : datetime;
  days_requested : Z;
  reason : string;
  status : PermitStatus;
  created_at : datetime;
  reviewed_at : option datetime;
  reviewed_by : option string;
  rejection_reason : option string
}.

Record DaysAvailable := {
  vacation_period_1 : Z;
  vacation_period_2 : Z;
  vacation_additional : Z;
  economic_days : Z;
  total_vacation : Z;
  total_economic : Z
}.

(** ** Exceptions *)

(** The [HTTPException]s the handlers raise: 403 for the wrong role, 404
    for an unknown permit or notification, 400 for a request beyond the
    balance, whose detail names the kind of day and shows the available
    total. *)
Inductive HTTPException :=
| Forbidden
| NotFound
| InsufficientBalance (kind : PermitType) (available : Z).

(** What a call can raise: one of these, or the [TypeError] of a
    subtraction between an aware and a naive [datetime]. *)
Inductive exception :=
| TypeError
| HTTP (e : HTTPException).

Coercion HTTP : HTTPException >-> exception.

Inductive result (A : Type) :=
| Ok (a : A)
| Raise (e : exception).

Arguments Ok {A} a.
Arguments Raise {A} e.

Definition bind {A B} (r : result A) (k : A -> result B) : result B :=
  match r with
  | Ok a => k a
  | Raise e => Raise e
  end.

Notation "x <- r ;; k" := (bind r (fun x => k))
  (at level 61, r at next level, right associativity).

(** [a - b] on two [datetime]s: defined between two aware or two naive
    ones, a [TypeError] otherwise. *)
Definition datetime_sub (a b : datetime) : result timedelta :=
  match a, b with
  | aware x, aware y => Ok (x - y)
  | naive x, naive y => Ok (x - y)
  | _, _ => Raise TypeError
  end.

(** ** The entitlement computation *)

(** [.days / 365.25] of the elapsed time: the quotient of a whole number
    of days by 365.25.  The source computes it in double precision; the
    model keeps the exact rational.  The two agree on everything the function
    does with the value (comparisons with 5 and 6, [int(y - 5)],
    [int(y / 10)]): the exact value [4 * days / 1461] is either an integer,
    in which case the float operations involved are exact, or at distance
    at least [1/1461] from every integer ([years_of_gap] below), far more
    than the rounding error of a double for any number of days a [datetime]
    difference can hold; the same goes for [y - 5] and, with a tenth of the
    distance, for [y / 10]. *)
Definition years_of (elapsed : timedelta) : Q :=
  (inject_Z (days elapsed) / 365.25)%Q.

Arguments years_of elapsed%_Z.

(** Line 150: the clock reading is aware, so the subtraction raises for a
    naive hire date. *)
Definition years_of_service (now : instant) (hire : datetime) : result Q :=
  elapsed <- datetime_sub (aware now) hire ;;
  Ok (years_of elapsed).

(** Python's [int] on a float truncates toward zero. *)
Definition py_int (q : Q) : Z := Z.quot (Qnum q) (Zpos (Qden q)).

(** [a >= b] and [a > b] on the tenure. *)
Definition Qge_bool (a b : Q) : bool := Qle_bool b a.
Definition Qgt_bool (a b : Q) : bool := negb (Qle_bool a b).

(** Lines 154-165: the tenure-based vacation bucket before any use. *)
Definition accrued_vacation_additional (ct : ContractType) (y : Q) : Z :=
  let vacation_additional := 0 in
  match ct with
  | FULL_TIME | PART_TIME =>
      if Qge_bool y 6 then
        let years_after_five := py_int (y - 5)%Q in
        let vacation_additional := Z.min (5 + years_after_five) 15 in
        match ct with
        | FULL_TIME => Z.min vacation_additional 8
        | _ => Z.min vacation_additional 8
        end
      else if Qgt_bool y 5 then 5
      else vacation_additional
  | HOURLY => vacation_additional
  end.

(** Lines 167-169: the economic days before any use. *)
Definition accrued_economic_days (y : Q) : Z :=
  let economic_base := 8 in
  let economic_additional := py_int (y / 10)%Q in
  economic_base + economic_additional.

(** Python's [sum] of unbounded integers, from the left, starting at 0. *)
Definition py_sum (l : list Z) : Z := fold_left Z.add l 0.

Definition approved_permits (permits : list Permit) : list Permit :=
  filter (fun p => PermitStatus_eqb (status p) APPROVED) permits.

Definition days_used (kind : PermitType) (permits : list Permit) : Z :=
  py_sum (map days_requested
         (filter (fun p => PermitType_eqb (permit_type p) kind)
            (approved_permits permits))).

Definition zero_days : DaysAvailable :=
  {| vacation_period_1 := 0; vacation_period_2 := 0; vacation_additional := 0;
     economic_days := 0; total_vacation := 0; total_economic := 0 |}.

(** [calculate_days_available].  The clock it reads on line 150 is the
    argument [now]. *)
Definition calculate_days_available
    (now : instant) (user : User) (permits : list Permit)
    : result DaysAvailable :=
  match hire_date user, contract_type user with
  | Some hire, Some ct =>
      years <- years_of_service now hire ;;
      let vacation_period_1 := 10 in
      let vacation_period_2 := 10 in
      let vacation_additional := accrued_vacation_additional ct years in
      let economic_days := accrued_economic_days years in
      let vacation_used := days_used VACATION_57 permits in
      let economic_used := days_used ECONOMIC_62 permits in
      let total_vacation_available :=
        vacation_period_1 + vacation_period_2 + vacation_additional in
      let total_economic_available := economic_days in
      Ok {| vacation_period_1 :=
              Z.max 0 (vacation_period_1
                       - Z.min vacation_used vacation_period_1);
            vacation_period_2 :=
              Z.max 0 (vacation_period_2
                       - Z.max 0 (vacation_used - vacation_period_1));
            vacation_additional :=
              Z.max 0 (vacation_additional
                       - Z.max 0 (vacation_used
                                  - (vacation_period_1 + vacation_period_2)));
            economic_days :=
              Z.max 0 (total_economic_available - economic_used);
            total_vacation :=
              Z.max 0 (total_vacation_available - vacation_used);
            total_economic :=
              Z.max 0 (total_economic_available - economic_used) |}
  | _, _ => Ok zero_days
  end.

(** ** Requests and reviews *)

Record PermitCreate := {
  new_permit_type : PermitType;
  new_start_date : datetime;
  new_end_date : datetime;
  new_days_requested : Z;
  new_reason : string
}.

Record PermitReview := {
  review_status : PermitStatus;
  review_rejection_reason : option string
}.

(** Lines 291-298 of [create_permit]: the balance check on the snapshot of
    the requester's permit history. *)
Definition validate_request (now : instant) (current_user : User)
    (permits : list Permit) (permit_data : PermitCreate) : result unit :=
  days_available <- calculate_days_available now current_user permits ;;
  if PermitType_eqb (new_permit_type permit_data) VACATION_57 then
    if new_days_requested permit_data >? total_vacation days_available
    then Raise (InsufficientBalance VACATION_57 (total_vacation days_available))
    else Ok tt
  else
    if new_days_requested permit_data >? total_economic days_available
    then Raise (InsufficientBalance ECONOMIC_62 (total_economic days_available))
    else Ok tt.

(** The [permits] collection of the database, in insertion order.  The
    handlers also insert notifications, which never touch this collection
    and are modelled apart ([notify_admins], [notify_teacher]). *)
Definition collection := list Permit.

Definition has_id (wanted : string) (p : Permit) : bool :=
  String.eqb (permit_id p) wanted.

Definition find_one (wanted : string) (db : collection) : option Permit :=
  find (has_id wanted) db.

(** [update_one]: the first matching document is updated, no other. *)
Fixpoint update_one (wanted : string) (set : Permit -> Permit)
    (db : collection) : collection :=
  match db with
  | [] => []
  | p :: rest =>
      if has_id wanted p then set p :: rest
      else p :: update_one wanted set rest
  end.

(** [create_permit]; [fresh_id] is the [uuid4] the new document receives. *)
Definition create_permit (now : instant) (fresh_id : string)
    (permit_data : PermitCreate) (current_user : User) (db : collection)
    : result (Permit * collection) :=
  if negb (UserRole_eqb (role current_user) TEACHER) then Raise Forbidden
  else
    let permits :=
      firstn 1000
        (filter (fun p => String.eqb (teacher_id p) (user_id current_user)) db) in
    _ <- validate_request now current_user permits permit_data ;;
    let permit :=
      {| permit_id := fresh_id;
         teacher_id := user_id current_user;
         teacher_name := user_name current_user;
         permit_type := new_permit_type permit_data;
         start_date := new_start_date permit_data;
         end_date := new_end_date permit_data;
         days_requested := new_days_requested permit_data;
         reason := new_reason permit_data;
         status := PENDING;
         created_at := aware now;
         reviewed_at := None;
         reviewed_by := None;
         rejection_reason := None |} in
    Ok (permit, db ++ [permit]).

(** The [$set] document of [review_permit] applied to a permit: the
    rejection reason is only set when the review carries a non-empty one. *)
Definition apply_review (now : instant) (reviewer : User)
    (review : PermitReview) (p : Permit) : Permit :=
  {| permit_id := permit_id p;
     teacher_id := teacher_id p;
     teacher_name := teacher_name p;
     permit_type := permit_type p;
     start_date := start_date p;
     end_date := end_date p;
     days_requested := days_requested p;
     reason := reason p;
     status := review_status review;
     created_at := created_at p;
     reviewed_at := Some (aware now);
     reviewed_by := Some (user_name reviewer);
     rejection_reason :=
       match review_rejection_reason review with
       | Some text => if String.eqb text "" then rejection_reason p else Some text
       | None => rejection_reason p
       end |}.

(** [review_permit]: no test of the current status stands between the
    lookup and the update. *)
Definition review_permit (now : instant) (wanted : string)
    (review : PermitReview) (current_user : User) (db : collection)
    : result (Permit * collection) :=
  if negb (UserRole_eqb (role current_user) ADMIN) then Raise Forbidden
  else
    match find_one wanted db with
    | None => Raise NotFound
    | Some permit_doc =>
        let set := apply_review now current_user review in
        Ok (set permit_doc, update_one wanted set db)
    end.

(** ** The other handlers *)

(** The permits of one teacher, as the handlers query them:
    [find({"teacher_id": ...}).to_list(1000)]. *)
Definition permits_of (owner : string) (db : collection) : list Permit :=
  firstn 1000 (filter (fun p => String.eqb (teacher_id p) owner) db).

(** [get_permits]: an administrator reads the collection, anybody else the
    permits filed under the caller's own identifier; 1000 documents at
    most either way. *)
Definition get_permits (current_user : User) (db : collection)
    : list Permit :=
  if UserRole_eqb (role current_user) ADMIN then firstn 1000 db
  else permits_of (user_id current_user) db.

(** The [users] collection; a document is read back as a [User]. *)
Definition find_user (wanted : string) (users : list User) : option User :=
  find (fun u => String.eqb (user_id u) wanted) users.

(** [get_teacher_days]. *)
Definition get_teacher_days (now : instant) (wanted : string)
    (current_user : User) (users : list User) (db : collection)
    : result DaysAvailable :=
  if negb (UserRole_eqb (role current_user) ADMIN)
     && negb (String.eqb (user_id current_user) wanted)
  then Raise Forbidden
  else
    match find_user wanted users with
    | None => Raise NotFound
    | Some teacher =>
        calculate_days_available now teacher (permits_of wanted db)
    end.

Record Notification := {
  n_id : string;
  n_user_id : string;
  n_title : string;
  n_message : string;
  n_read : bool;
  n_created_at : datetime
}.

(** Python's [str] of an integer, as an f-string prints it. *)
Definition str (n : Z) : string := NilZero.string_of_int (Z.to_int n).

(** Lines 313-322 of [create_permit]: one notification for each of the
    first 100 administrators; [uuid4 k] is the identifier drawn for the
    [k]-th of them. *)
Definition notify_admins (now : instant) (uuid4 : nat -> string)
    (current_user : User) (permit : Permit) (users : list User)
    : list Notification :=
  let admins :=
    firstn 100 (filter (fun u => UserRole_eqb (role u) ADMIN) users) in
  map (fun '(k, admin) =>
         {| n_id := uuid4 k;
            n_user_id := user_id admin;
            n_title := "Nueva solicitud de permiso";
            n_message :=
              (user_name current_user ++ " ha solicitado un permiso de "
               ++ str (days_requested permit) ++ " días.")%string;
            n_read := false;
            n_created_at := aware now |})
      (combine (seq 0 (List.length admins)) admins).

(** Lines 368-376 of [review_permit]: the notification for the teacher of
    the reviewed permit. *)
Definition notify_teacher (now : instant) (fresh_id : string)
    (review : PermitReview) (current_user : User) (permit : Permit)
    : Notification :=
  let status_text : string :=
    if PermitStatus_eqb (review_status review) APPROVED
    then "aprobada"%string else "rechazada"%string in
  {| n_id := fresh_id;
     n_user_id := teacher_id permit;
     n_title := ("Solicitud " ++ status_text)%string;
     n_message :=
       ("Tu solicitud de permiso ha sido " ++ status_text ++ " por "
        ++ user_name current_user ++ ".")%string;
     n_read := false;
     n_created_at := aware now |}.

(** The three collections the handlers work on. *)
Record Database := {
  users : list User;
  permits : collection;
  notifications : list Notification
}.

(** [create_permit] with the notifications it inserts after the permit. *)
Definition create_permit_notify (now : instant) (fresh_id : string)
    (uuid4 : nat -> string) (permit_data : PermitCreate)
    (current_user : User) (db : Database) : result (Permit * Database) :=
  stored <- create_permit now fresh_id permit_data current_user (permits db) ;;
  let permit := fst stored in
  Ok (permit,
      {| users := users db;
         permits := snd stored;
         notifications :=
           notifications db
           ++ notify_admins now uuid4 current_user permit (users db) |}).

(** [review_permit] with the notification it inserts after the update. *)
Definition review_permit_notify (now : instant) (wanted : string)
    (fresh_id : string) (review : PermitReview) (current_user : User)
    (db : Database) : result (Permit * Database) :=
  updated <- review_permit now wanted review current_user (permits db) ;;
  let permit := fst updated in
  Ok (permit,
      {| users := users db;
         permits := snd updated;
         notifications :=
           notifications db
           ++ [notify_teacher now fresh_id review current_user permit] |}).

(** The filter of [mark_notification_read]: the identifier and the caller. *)
Definition is_notification (wanted owner : string) (n : Notification) : bool :=
  String.eqb (n_id n) wanted && String.eqb (n_user_id n) owner.

Definition set_read (n : Notification) : Notification :=
  {| n_id := n_id n; n_user_id := n_user_id n; n_title := n_title n;
     n_message := n_message n; n_read := true;
     n_created_at := n_created_at n |}.

(** [update_one] on the notifications: the first match is marked. *)
Fixpoint mark_first (wanted owner : string) (ns : list Notification)
    : list Notification :=
  match ns with
  | [] => []
  | n :: rest =>
      if is_notification wanted owner n then set_read n :: rest
      else n :: mark_first wanted owner rest
  end.

(** [matched_count] of that update: 1 when a document matches, else 0. *)
Definition matched_count (wanted owner : string) (ns : list Notification)
    : nat :=
  if existsb (is_notification wanted owner) ns then 1%nat else 0%nat.

(** [mark_notification_read]. *)
Definition mark_notification_read (wanted : string) (current_user : User)
    (ns : list Notification) : result (list Notification) :=
  if Nat.eqb (matched_count wanted (user_id current_user) ns) 0
  then Raise NotFound
  else Ok (mark_first wanted (user_id current_user) ns).

(** What one permit adds to [days_used]: its days when it is approved and
    of the kind asked for, nothing otherwise. *)
Definition counted (kind : PermitType) (p : Permit) : Z :=
  if PermitStatus_eqb (status p) APPROVED
     && PermitType_eqb (permit_type p) kind
  then days_requested p else 0.

(** ** Sample data *)

Definition day (n : Z) : instant := n * microseconds_per_day.

(** A teacher with an aware hire date, when there is one. *)
Definition teacher (ct : option ContractType) (hire : option instant) : User :=
  {| user_id := "t1"; user_name := "Ana"; role := TEACHER;
     contract_type := ct; hire_date := option_map aware hire |}.

(** A teacher whose hire date was registered without an offset. *)
Definition teacher_without_offset (ct : ContractType) (wall : Z) : User :=
  {| user_id := "t1"; user_name := "Ana"; role := TEACHER;
     contract_type := Some ct; hire_date := Some (naive wall) |}.

Definition admin : User :=
  {| user_id := "a1"; user_name := "Luz"; role := ADMIN;
     contract_type := None; hire_date := None |}.

Definition permit (name : string) (kind : PermitType) (n : Z)
    (s : PermitStatus) : Permit :=
  {| permit_id := name; teacher_id := "t1"; teacher_name := "Ana";
     permit_type := kind; start_date := naive (day 0); end_date := naive (day 1);
     days_requested := n; reason := "viaje"; status := s;
     created_at := aware (day 0); reviewed_at := None; reviewed_by := None;
     rejection_reason := None |}.

Definition request (kind : PermitType) (n : Z) : PermitCreate :=
  {| new_permit_type := kind; new_start_date := naive (day 20);
     new_end_date := naive (day 21);
     new_days_requested := n; new_reason := "descanso" |}.

Definition colleague_permit (name : string) (kind : PermitType) (n : Z)
    (s : PermitStatus) : Permit :=
  {| permit_id := name; teacher_id := "t2"; teacher_name := "Eva";
     permit_type := kind; start_date := naive (day 3); end_date := naive (day 4);
     days_requested := n; reason := "congreso"; status := s;
     created_at := aware (day 2); reviewed_at := None; reviewed_by := None;
     rejection_reason := None |}.

Definition note (name owner : string) (seen : bool) : Notification :=
  {| n_id := name; n_user_id := owner; n_title := "Aviso";
     n_message := "Texto"; n_read := seen; n_created_at := aware (day 1) |}.

(** The profiles on which line 150 raises: a contract type and a hire date
    without an offset. *)
Definition offset_missing (user : User) : Prop :=
  exists wall ct,
    hire_date user = Some (naive wall) /\ contract_type user = Some ct.

(** ** The statements of the specification that the code does not meet *)

(** The years of service as the specification words them: the elapsed time
    since the hire date divided by 365.25 days, fractions of a day included.
    The specification knows one kind of hire date; the reading of a naive one
    is taken as it stands. *)
Definition reading (d : datetime) : Z :=
  match d with
  | aware t => t
  | naive t => t
  end.

Definition elapsed_years (now : instant) (hire : datetime) : Q :=
  (inject_Z (now - reading hire)
   / (365.25 * inject_Z microseconds_per_day))%Q.

Arguments elapsed_years now%_Z hire.

(** C1, as the specification words it: for every employee with a hire date
    the additional bucket follows the elapsed years. *)
Definition additional_bucket_by_elapsed_years : Prop :=
  forall now user hire ct,
    hire_date user = Some hire ->
    contract_type user = Some ct ->
    exists snapshot,
      calculate_days_available now user [] = Ok snapshot /\
      let y := elapsed_years now hire in
      let bucket := vacation_additional snapshot in
      (ct = HOURLY -> bucket = 0) /\
      (ct <> HOURLY ->
       ((y <= 5)%Q -> bucket = 0) /\
       ((5 < y)%Q /\ (y < 6)%Q -> bucket = 5) /\
       ((6 <= y)%Q -> bucket = Z.min (5 + Qfloor (y - 5)) 8)).

(** C2, as the specification words it: for every employee with a hire date
    and a contract type the used days are taken from the buckets in order. *)
Definition allocation_for_every_hire_date : Prop :=
  forall now user hire ct permits,
    hire_date user = Some hire ->
    contract_type user = Some ct ->
    0 <= days_used VACATION_57 permits ->
    exists snapshot additional,
      calculate_days_available now user permits = Ok snapshot /\
      let used := days_used VACATION_57 permits in
      vacation_period_1 snapshot = Z.max 0 (10 - Z.max 0 (used - 0)) /\
      vacation_period_2 snapshot = Z.max 0 (10 - Z.max 0 (used - 10)) /\
      vacation_additional snapshot =
        Z.max 0 (additional - Z.max 0 (used - (10 + 10))) /\
      total_vacation snapshot = Z.max 0 (10 + 10 + additional - used).

(** C3, as the specification words it: the economic days left are
    [max 0 (8 + floor (years / 10) - used)] for every employee with a hire
    date and a contract type. *)
Definition economic_days_by_floor : Prop :=
  forall now user hire ct permits,
    hire_date user = Some hire ->
    contract_type user = Some ct ->
    0 <= days_used ECONOMIC_62 permits ->
    exists snapshot,
      calculate_days_available now user permits = Ok snapshot /\
      economic_days snapshot =
        Z.max 0 (8 + Qfloor (elapsed_years now hire / 10)
                 - days_used ECONOMIC_62 permits) /\
      total_economic snapshot = economic_days snapshot.


(** C9, as the specification words it: the snapshot depends on the
    employee and the permits alone. *)
Definition snapshot_ignores_clock : Prop :=
  forall now1 now2 user permits,
    calculate_days_available now1 user permits =
    calculate_days_available now2 user permits.

(** C8, as the specification words it: a review only ever takes a pending
    permit to approved or rejected. *)
Definition review_only_decides_pending : Prop :=
  forall now wanted review reviewer db old reviewed db',
    find_one wanted db = Some old ->
    review_permit now wanted review reviewer db = Ok (reviewed, db') ->
    status old = PENDING /\
    (status reviewed = APPROVED \/ status reviewed = REJECTED).

(** C10, as the claim words it: for every employee with a hire date and a
    contract type a negative sum of approved vacation days is reported on top
    of period 1. *)
Definition inflation_for_every_hire_date : Prop :=
  forall now user hire ct permits,
    hire_date user = Some hire ->
    contract_type user = Some ct ->
    days_used VACATION_57 permits < 0 ->
    exists snapshot,
      calculate_days_available now user permits = Ok snapshot /\
      vacation_period_1 snapshot = 10 - days_used VACATION_57 permits /\
      10 < vacation_period_1 snapshot /\
      vacation_period_2 snapshot = 10.

(** ** Tenure arithmetic *)

Section Tenure.

Variable elapsed : timedelta.

Let y : Q := years_of elapsed.

(** The tenure is four times the elapsed days over 1461. *)
Lemma years_of_days :
  (y == (4 * days elapsed)%Z # 1461)%Q.
Proof.
  unfold y, years_of.
  cbv [Qeq Qdiv Qmult Qinv inject_Z Qnum Qden]. lia.
Qed.

(** The tenure is an integer or stays away from every integer by at least
    1/1461 of a year. *)
Lemma years_of_gap (k : Z) :
  (y == inject_Z k \/ y + (1 # 1461) <= inject_Z k
   \/ inject_Z k + (1 # 1461) <= y)%Q.
Proof.
  unfold y, years_of.
  cbv [Qeq Qle Qdiv Qmult Qinv Qplus inject_Z Qnum Qden Pos.mul]. lia.
Qed.

End Tenure.

Lemma years_of_service_aware (now hire : instant) :
  years_of_service now (aware hire) = Ok (years_of (now - hire)).
Proof. reflexivity. Qed.

Lemma years_of_service_naive (now : instant) (wall : Z) :
  years_of_service now (naive wall) = Raise TypeError.
Proof. reflexivity. Qed.

(** Truncation toward zero is the floor on the non-negative rationals. *)
Lemma py_int_floor (q : Q) : (0 <= q)%Q -> py_int q = Qfloor q.
Proof.
  destruct q as [n d]. unfold Qle, py_int, Qfloor; simpl.
  intros Hn. apply Z.quot_div_nonneg; lia.
Qed.

Lemma Qge_bool_iff (a b : Q) : Qge_bool a b = true <-> (b <= a)%Q.
Proof. unfold Qge_bool. apply Qle_bool_iff. Qed.

Lemma Qgt_bool_iff (a b : Q) : Qgt_bool a b = true <-> (b < a)%Q.
Proof.
  unfold Qgt_bool. rewrite negb_true_iff. split.
  - intros H. apply Qnot_le_lt. intros Hle.
    apply Qle_bool_iff in Hle. congruence.
  - intros H. destruct (Qle_bool a b) eqn:E; [|reflexivity].
    apply Qle_bool_iff in E. exfalso. exact (Qlt_not_le _ _ H E).
Qed.

Lemma Qge_bool_false (a b : Q) : Qge_bool a b = false <-> (a < b)%Q.
Proof.
  rewrite <- not_true_iff_false, Qge_bool_iff. split.
  - apply Qnot_le_lt.
  - intros H Hle. exact (Qlt_not_le _ _ H Hle).
Qed.

Lemma Qgt_bool_false (a b : Q) : Qgt_bool a b = false <-> (a <= b)%Q.
Proof.
  rewrite <- not_true_iff_false, Qgt_bool_iff. split.
  - apply Qnot_lt_le.
  - intros H Hlt. exact (Qlt_not_le _ _ Hlt H).
Qed.

(** The accrual of the additional bucket, case by case. *)
Lemma accrued_vacation_additional_hourly (y : Q) :
  accrued_vacation_additional HOURLY y = 0.
Proof. reflexivity. Qed.

Lemma accrued_vacation_additional_low (ct : ContractType) (y : Q) :
  (y <= 5)%Q -> accrued_vacation_additional ct y = 0.
Proof.
  intros Hy.
  assert (H6 : Qge_bool y 6 = false).
  { apply Qge_bool_false. apply Qle_lt_trans with (y := 5%Q); [exact Hy|reflexivity]. }
  assert (H5 : Qgt_bool y 5 = false) by (apply Qgt_bool_false; exact Hy).
  destruct ct; unfold accrued_vacation_additional; rewrite ?H6, ?H5; reflexivity.
Qed.

Lemma accrued_vacation_additional_sixth (ct : ContractType) (y : Q) :
  ct <> HOURLY -> (5 < y)%Q -> (y < 6)%Q ->
  accrued_vacation_additional ct y = 5.
Proof.
  intros Hct H5 H6.
  apply Qge_bool_false in H6. apply Qgt_bool_iff in H5.
  destruct ct; try congruence;
    unfold accrued_vacation_additional; rewrite H6, H5; reflexivity.
Qed.

Lemma accrued_vacation_additional_senior (ct : ContractType) (y : Q) :
  ct <> HOURLY -> (6 <= y)%Q ->
  accrued_vacation_additional ct y = Z.min (5 + Qfloor (y - 5)) 8.
Proof.
  intros Hct H6.
  assert (Hpos : (0 <= y - 5)%Q).
  { rewrite <- (Qplus_opp_r 5). apply Qplus_le_compat; [|apply Qle_refl].
    apply Qle_trans with (y := 6%Q); [discriminate|exact H6]. }
  apply Qge_bool_iff in H6.
  destruct ct; try congruence;
    unfold accrued_vacation_additional; rewrite H6, (py_int_floor _ Hpos); lia.
Qed.

Lemma accrued_vacation_additional_range (ct : ContractType) (y : Q) :
  0 <= accrued_vacation_additional ct y <= 8.
Proof.
  unfold accrued_vacation_additional.
  destruct ct; try lia;
    (destruct (Qge_bool y 6) eqn:H6;
     [ apply Qge_bool_iff in H6 | destruct (Qgt_bool y 5); lia ]).
  all: assert (Hpos : (1 <= y - 5)%Q)
    by (setoid_replace 1%Q with (6 - 5)%Q by reflexivity;
        apply Qplus_le_compat; [exact H6|apply Qle_refl]).
  all: assert (H1 : 1 <= py_int (y - 5))
    by (rewrite py_int_floor by (apply Qle_trans with (y := 1%Q); [discriminate|exact Hpos]);
        change 1 with (Qfloor 1); apply Qfloor_resp_le; exact Hpos).
  all: lia.
Qed.

(** ** The snapshot of a complete profile *)

Section Snapshot.

Variables (now : instant) (user : User) (permits : list Permit).
Variables (hire : instant) (ct : ContractType).
Hypothesis Hhire : hire_date user = Some (aware hire).
Hypothesis Hct : contract_type user = Some ct.

Let additional := accrued_vacation_additional ct (years_of (now - hire)).
Let economic := accrued_economic_days (years_of (now - hire)).
Let vacation_used := days_used VACATION_57 permits.
Let economic_used := days_used ECONOMIC_62 permits.

(** With an aware hire date and a contract type the function reaches lines
    150-185 and returns. *)
Lemma calculate_days_available_complete :
  calculate_days_available now user permits =
  Ok {| vacation_period_1 := Z.max 0 (10 - Z.min vacation_used 10);
        vacation_period_2 := Z.max 0 (10 - Z.max 0 (vacation_used - 10));
        vacation_additional :=
          Z.max 0 (additional - Z.max 0 (vacation_used - (10 + 10)));
        economic_days := Z.max 0 (economic - economic_used);
        total_vacation := Z.max 0 (10 + 10 + additional - vacation_used);
        total_economic := Z.max 0 (economic - economic_used) |}.
Proof.
  unfold calculate_days_available. rewrite Hhire, Hct. reflexivity.
Qed.

End Snapshot.

(** With a naive hire date and a contract type the subtraction of line 150
    raises. *)
Lemma calculate_days_available_naive now user permits wall ct :
  hire_date user = Some (naive wall) ->
  contract_type user = Some ct ->
  calculate_days_available now user permits = Raise TypeError.
Proof.
  intros Hhire Hct. unfold calculate_days_available.
  rewrite Hhire, Hct. reflexivity.
Qed.

Lemma calculate_days_available_incomplete now user permits :
  hire_date user = None \/ contract_type user = None ->
  calculate_days_available now user permits = Ok zero_days.
Proof.
  intros Hmissing. unfold calculate_days_available.
  destruct Hmissing as [E|E]; rewrite E; [reflexivity|].
  destruct (hire_date user); reflexivity.
Qed.

(** Case analysis on the profile: an aware hire date, a naive one or none,
    with or without a contract type. *)
Ltac profile_cases user :=
  unfold calculate_days_available;
  destruct (hire_date user) as [[?hire|?wall]|];
  destruct (contract_type user) as [?ct|];
  cbn [bind years_of_service datetime_sub].

Lemma Ok_inj {A : Type} (a b : A) : Ok a = Ok b -> a = b.
Proof. intros [= H]. exact H. Qed.

Ltac returned :=
  repeat match goal with
         | H : Ok _ = Ok ?s |- _ => apply Ok_inj in H; subst s
         | H : Raise _ = Ok _ |- _ => discriminate H
         | H : Ok _ = Raise _ |- _ => discriminate H
         end.

(** The function raises on these profiles and on no other, and then a
    [TypeError]; the clock and the permits play no part in that. *)
Lemma calculate_days_available_raises now user permits e :
  calculate_days_available now user permits = Raise e <->
  e = TypeError /\ offset_missing user.
Proof.
  unfold offset_missing. profile_cases user; split.
  all: try discriminate.
  all: try (intros [_ [w [c [H1 H2]]]]; discriminate).
  - intros [= <-]. split; [reflexivity|]. eexists. eexists. split; reflexivity.
  - intros [-> _]. reflexivity.
Qed.

Lemma calculate_days_available_returns now user permits :
  ~ offset_missing user ->
  exists snapshot, calculate_days_available now user permits = Ok snapshot.
Proof.
  intros Hno.
  destruct (calculate_days_available now user permits) as [s|e] eqn:Hrun;
    [exists s; reflexivity|].
  apply calculate_days_available_raises in Hrun. tauto.
Qed.

Lemma calculate_days_available_again now user permits snapshot now' permits' :
  calculate_days_available now user permits = Ok snapshot ->
  exists snapshot',
    calculate_days_available now' user permits' = Ok snapshot'.
Proof.
  intros Hrun. apply calculate_days_available_returns. intros Hno.
  assert (Hraise : calculate_days_available now user permits = Raise TypeError)
    by (apply calculate_days_available_raises; split; [reflexivity|exact Hno]).
  congruence.
Qed.

(** Every field of a returned snapshot is a [max(0, ...)] or a literal 0. *)
Lemma calculate_days_available_nonneg now user permits snapshot :
  calculate_days_available now user permits = Ok snapshot ->
  0 <= vacation_period_1 snapshot /\ 0 <= vacation_period_2 snapshot /\
  0 <= vacation_additional snapshot /\ 0 <= economic_days snapshot /\
  0 <= total_vacation snapshot /\ 0 <= total_economic snapshot.
Proof.
  profile_cases user; intros Hrun; returned; simpl; lia.
Qed.

(** ** Approved permits only *)

Lemma approved_permits_skip (before after : list Permit) (p : Permit) :
  status p <> APPROVED ->
  approved_permits (before ++ p :: after) = approved_permits (before ++ after).
Proof.
  intros Hp. unfold approved_permits.
  rewrite !filter_app. simpl.
  destruct (status p); simpl; congruence.
Qed.

Lemma days_used_skip (kind : PermitType) (before after : list Permit)
    (p : Permit) :
  status p <> APPROVED ->
  days_used kind (before ++ p :: after) = days_used kind (before ++ after).
Proof.
  intros Hp. unfold days_used. now rewrite approved_permits_skip.
Qed.

Lemma calculate_days_available_used now user (l1 l2 : list Permit) :
  days_used VACATION_57 l1 = days_used VACATION_57 l2 ->
  days_used ECONOMIC_62 l1 = days_used ECONOMIC_62 l2 ->
  calculate_days_available now user l1 = calculate_days_available now user l2.
Proof.
  intros Hv He. unfold calculate_days_available.
  destruct (hire_date user), (contract_type user); try reflexivity.
  now rewrite Hv, He.
Qed.

(** ** The verdict on a request *)

Lemma validate_request_returned now user permits data snapshot :
  calculate_days_available now user permits = Ok snapshot ->
  validate_request now user permits data =
  if PermitType_eqb (new_permit_type data) VACATION_57 then
    if new_days_requested data >? total_vacation snapshot
    then Raise (InsufficientBalance VACATION_57 (total_vacation snapshot))
    else Ok tt
  else
    if new_days_requested data >? total_economic snapshot
    then Raise (InsufficientBalance ECONOMIC_62 (total_economic snapshot))
    else Ok tt.
Proof.
  intros Hrun. unfold validate_request. rewrite Hrun. reflexivity.
Qed.

Lemma validate_request_raised now user permits data e :
  calculate_days_available now user permits = Raise e ->
  validate_request now user permits data = Raise e.
Proof.
  intros Hrun. unfold validate_request. rewrite Hrun. reflexivity.
Qed.

Lemma validate_request_snapshot now user (l1 l2 : list Permit) data :
  calculate_days_available now user l1 = calculate_days_available now user l2 ->
  validate_request now user l1 data = validate_request now user l2 data.
Proof.
  intros H. unfold validate_request. now rewrite H.
Qed.

(** The total a request of a given kind is held against. *)
Lemma validate_request_ok now user history data :
  validate_request now user history data = Ok tt <->
  exists snapshot,
    calculate_days_available now user history = Ok snapshot /\
    new_days_requested data <=
    match new_permit_type data with
    | VACATION_57 => total_vacation snapshot
    | ECONOMIC_62 => total_economic snapshot
    end.
Proof.
  destruct (calculate_days_available now user history) as [s|e] eqn:Hrun.
  - rewrite (validate_request_returned _ _ _ data _ Hrun).
    destruct (new_permit_type data); cbn [PermitType_eqb];
      match goal with |- context [?a >? ?b] => destruct (Z.gtb_spec a b) end;
      split.
    all: solve [ discriminate
               | intros _; reflexivity
               | intros [s' [[= <-] Hle]]; lia
               | intros _; exists s; split; [reflexivity|lia] ].
  - rewrite (validate_request_raised _ _ _ data _ Hrun).
    split; [discriminate|]. intros [s [H _]]. discriminate H.
Qed.

Lemma validate_request_raise now user history data e :
  validate_request now user history data = Raise e ->
  (e = TypeError /\ offset_missing user) \/
  exists snapshot,
    calculate_days_available now user history = Ok snapshot /\
    e = InsufficientBalance (new_permit_type data)
          match new_permit_type data with
          | VACATION_57 => total_vacation snapshot
          | ECONOMIC_62 => total_economic snapshot
          end.
Proof.
  destruct (calculate_days_available now user history) as [s|e'] eqn:Hrun.
  - rewrite (validate_request_returned _ _ _ data _ Hrun).
    intros Hraise. right. exists s. split; [reflexivity|]. revert Hraise.
    destruct (new_permit_type data); cbn [PermitType_eqb];
      match goal with |- context [?a >? ?b] => destruct (a >? b) end;
      intros [= <-]; reflexivity.
  - rewrite (validate_request_raised _ _ _ data _ Hrun).
    intros [= <-]. left.
    apply (calculate_days_available_raises now user history e'). exact Hrun.
Qed.

(** [create_permit] refuses a request for the role or for what the balance
    check raises, and for nothing else. *)
Lemma create_permit_refused now fresh_id data user db e :
  create_permit now fresh_id data user db = Raise e ->
  (role user <> TEACHER /\ e = Forbidden) \/
  (role user = TEACHER /\
   validate_request now user
     (firstn 1000
        (filter (fun p => String.eqb (teacher_id p) (user_id user)) db))
     data = Raise e).
Proof.
  unfold create_permit.
  destruct (role user); simpl.
  - intros [= <-]. left. split; [discriminate|reflexivity].
  - destruct (validate_request _ _ _ _) as [[]|e']; simpl; [discriminate|].
    intros [= <-]. right. split; reflexivity.
Qed.

(** ** Properties of the specification *)

(** C1 fails twice over.  The code takes the tenure from the whole days
    elapsed: 2191 days and 12 hours after the hire date the elapsed years are
    exactly 6, for which the claim gives a bucket of 6, and the code, on 2191
    whole days, gives 5.  And a hire date registered without an offset makes
    line 150 raise. *)
Lemma additional_bucket_at_six_years :
  let now := day 2191 + 43200000000 in
  (elapsed_years now (aware (day 0)) == 6)%Q /\
  Z.min (5 + Qfloor (elapsed_years now (aware (day 0)) - 5)) 8 = 6 /\
  (exists snapshot,
     calculate_days_available now (teacher (Some FULL_TIME) (Some (day 0))) []
     = Ok snapshot /\ vacation_additional snapshot = 5) /\
  calculate_days_available now (teacher_without_offset FULL_TIME (day 0)) []
  = Raise TypeError /\
  ~ additional_bucket_by_elapsed_years.
Proof.
  intros now.
  assert (Hsix : (elapsed_years now (aware (day 0)) == 6)%Q) by reflexivity.
  split; [exact Hsix|]. split; [reflexivity|].
  split; [eexists; split; reflexivity|]. split; [reflexivity|].
  intros H.
  destruct (H now (teacher (Some FULL_TIME) (Some (day 0))) (aware (day 0))
              FULL_TIME eq_refl eq_refl) as [s [Hrun [_ Hcases]]].
  vm_compute in Hrun. injection Hrun as <-.
  destruct (Hcases ltac:(discriminate)) as [_ [_ Hsenior]].
  assert (Hle : (6 <= elapsed_years now (aware (day 0)))%Q)
    by (rewrite Hsix; apply Qle_refl).
  specialize (Hsenior Hle). vm_compute in Hsenior. discriminate Hsenior.
Qed.

(** C1, amended.  For an employee with a timezone-aware hire date and a
    full-time or part-time contract, with the years of service taken as the
    whole days elapsed since the hire date divided by 365.25, the additional
    vacation bucket is set to 0 when the years are at most 5, to 5 when they
    lie strictly between 5 and 6, and to [min (5 + floor (years - 5)) 8]
    from 6 years on; for an hourly contract it is 0 whatever the tenure.  The
    bucket is the value the returned snapshot reports as long as the
    approved vacation days do not reach into it. *)
Theorem additional_bucket_by_tenure now user hire ct permits :
  hire_date user = Some (aware hire) ->
  contract_type user = Some ct ->
  let y := years_of (now - hire) in
  let bucket := accrued_vacation_additional ct y in
  (days_used VACATION_57 permits <= 20 ->
   exists snapshot,
     calculate_days_available now user permits = Ok snapshot /\
     vacation_additional snapshot = bucket) /\
  (ct = HOURLY -> bucket = 0) /\
  (ct <> HOURLY ->
   ((y <= 5)%Q -> bucket = 0) /\
   ((5 < y)%Q /\ (y < 6)%Q -> bucket = 5) /\
   ((6 <= y)%Q -> bucket = Z.min (5 + Qfloor (y - 5)) 8)).
Proof.
  intros Hhire Hct y bucket. split; [|split].
  - intros Hused. eexists. split.
    + apply (calculate_days_available_complete now user permits hire ct
               Hhire Hct).
    + cbn [vacation_additional]. fold y. fold bucket.
      pose proof (accrued_vacation_additional_range ct y) as H.
      fold bucket in H. lia.
  - intros ->. apply accrued_vacation_additional_hourly.
  - intros Hno. repeat split.
    + apply accrued_vacation_additional_low.
    + intros [H5 H6]. now apply accrued_vacation_additional_sixth.
    + now apply accrued_vacation_additional_senior.
Qed.

Lemma additional_bucket_by_tenure_witness :
  hire_date (teacher (Some PART_TIME) (Some (day 0))) = Some (aware (day 0)) /\
  contract_type (teacher (Some PART_TIME) (Some (day 0))) = Some PART_TIME /\
  (6 <= years_of (day 2600 - day 0))%Q /\
  PART_TIME <> HOURLY /\
  accrued_vacation_additional PART_TIME (years_of (day 2600 - day 0)) =
  Z.min (5 + Qfloor (years_of (day 2600 - day 0) - 5)) 8.
Proof.
  assert (H6 : (6 <= years_of (day 2600 - day 0))%Q)
    by (vm_compute; discriminate).
  assert (Hno : PART_TIME <> HOURLY) by discriminate.
  split; [reflexivity|]. split; [reflexivity|]. split; [exact H6|].
  split; [exact Hno|].
  destruct (additional_bucket_by_tenure (day 2600)
              (teacher (Some PART_TIME) (Some (day 0))) (day 0) PART_TIME
              [permit "p1" VACATION_57 12 APPROVED] eq_refl eq_refl)
    as [_ [_ Hcases]].
  destruct (Hcases Hno) as [_ [_ Hsenior]].
  exact (Hsenior H6).
Defined.

(** C2 fails for a hire date registered without an offset: line 150 raises
    and no snapshot is returned. *)
Lemma allocation_raises_without_offset :
  let user := teacher_without_offset FULL_TIME (day 0) in
  let history := [permit "p1" VACATION_57 15 APPROVED] in
  hire_date user = Some (naive (day 0)) /\
  0 <= days_used VACATION_57 history /\
  calculate_days_available (day 2000) user history = Raise TypeError /\
  ~ allocation_for_every_hire_date.
Proof.
  intros user history.
  split; [reflexivity|]. split; [vm_compute; discriminate|].
  split; [reflexivity|].
  intros H.
  destruct (H (day 2000) user (naive (day 0)) FULL_TIME history
              eq_refl eq_refl ltac:(vm_compute; discriminate))
    as [s [a [Hrun _]]].
  discriminate Hrun.
Qed.

(** C2, amended.  For an employee with a timezone-aware hire date and a
    contract type and a non-negative total of approved vacation days, the
    snapshot is returned and the days are taken from period 1 (10 days), then
    period 2 (10 days), then the additional bucket: each bucket keeps
    [max 0 (cap - max 0 (used - caps before it))], the total is
    [max 0 (10 + 10 + additional - used)], and with an additional bucket of 5
    and 15 days used the buckets keep 0, 5 and 5. *)
Theorem vacation_allocation_order now user hire ct permits :
  hire_date user = Some (aware hire) ->
  contract_type user = Some ct ->
  0 <= days_used VACATION_57 permits ->
  let additional := accrued_vacation_additional ct (years_of (now - hire)) in
  let used := days_used VACATION_57 permits in
  exists snapshot,
    calculate_days_available now user permits = Ok snapshot /\
    vacation_period_1 snapshot = Z.max 0 (10 - Z.max 0 (used - 0)) /\
    vacation_period_2 snapshot = Z.max 0 (10 - Z.max 0 (used - 10)) /\
    vacation_additional snapshot =
      Z.max 0 (additional - Z.max 0 (used - (10 + 10))) /\
    total_vacation snapshot = Z.max 0 (10 + 10 + additional - used) /\
    (additional = 5 -> used = 15 ->
     vacation_period_1 snapshot = 0 /\ vacation_period_2 snapshot = 5 /\
     vacation_additional snapshot = 5).
Proof.
  intros Hhire Hct Hused additional used. eexists. split.
  - apply (calculate_days_available_complete now user permits hire ct
             Hhire Hct).
  - cbn [vacation_period_1 vacation_period_2 vacation_additional
         total_vacation].
    fold additional. fold used. fold used in Hused.
    split; [lia|]. split; [lia|]. split; [lia|]. split; [lia|].
    intros Hadditional Hfifteen. lia.
Qed.

Lemma vacation_allocation_order_witness :
  let user := teacher (Some FULL_TIME) (Some (day 0)) in
  let history :=
    [permit "p1" VACATION_57 9 APPROVED; permit "p2" ECONOMIC_62 3 APPROVED;
     permit "p3" VACATION_57 4 PENDING; permit "p4" VACATION_57 6 APPROVED] in
  hire_date user = Some (aware (day 0)) /\
  0 <= days_used VACATION_57 history /\
  exists snapshot,
    calculate_days_available (day 2000) user history = Ok snapshot /\
    vacation_period_1 snapshot = 0 /\ vacation_period_2 snapshot = 5 /\
    vacation_additional snapshot = 5.
Proof.
  intros user history.
  assert (Hused : 0 <= days_used VACATION_57 history)
    by (vm_compute; discriminate).
  split; [reflexivity|]. split; [exact Hused|].
  destruct (vacation_allocation_order (day 2000) user (day 0) FULL_TIME history
              eq_refl eq_refl Hused)
    as [snapshot [Hrun [_ [_ [_ [_ Hexample]]]]]].
  exists snapshot. split; [exact Hrun|].
  apply Hexample; reflexivity.
Defined.

(** C3 fails for a hire date that lies ahead: one day before the hire date
    the tenure is negative, [int] truncates [years / 10] to 0 where the floor
    is -1, and the snapshot shows 8 economic days, not 7. *)
Lemma economic_days_future_hire :
  (exists snapshot,
     calculate_days_available (day 0)
       (teacher (Some HOURLY) (Some (day 1))) [] = Ok snapshot /\
     economic_days snapshot = 8) /\
  Z.max 0 (8 + Qfloor (elapsed_years (day 0) (aware (day 1)) / 10)
           - days_used ECONOMIC_62 []) = 7 /\
  ~ economic_days_by_floor.
Proof.
  split; [eexists; split; reflexivity|]. split; [reflexivity|].
  intros H.
  destruct (H (day 0) (teacher (Some HOURLY) (Some (day 1))) (aware (day 1))
              HOURLY [] eq_refl eq_refl) as [s [Hrun [Hfloor _]]].
  - vm_compute; discriminate.
  - vm_compute in Hrun. injection Hrun as <-.
    vm_compute in Hfloor. discriminate Hfloor.
Qed.

(** C3, amended.  For every employee with a timezone-aware hire date and a
    contract type (hourly included), with the years of service taken as the
    whole days elapsed since the hire date divided by 365.25, the economic
    days left are [max 0 (8 + int (years / 10) - used)], where [int] rounds
    toward zero; when the hire date is not ahead of the clock this is
    [max 0 (8 + floor (years / 10) - used)]; and [total_economic] always
    equals [economic_days]. *)
Theorem economic_days_by_tenure now user hire ct permits :
  hire_date user = Some (aware hire) ->
  contract_type user = Some ct ->
  let y := years_of (now - hire) in
  let used := days_used ECONOMIC_62 permits in
  exists snapshot,
    calculate_days_available now user permits = Ok snapshot /\
    economic_days snapshot = Z.max 0 (8 + py_int (y / 10) - used) /\
    (hire <= now ->
     economic_days snapshot = Z.max 0 (8 + Qfloor (y / 10) - used)) /\
    total_economic snapshot = economic_days snapshot.
Proof.
  intros Hhire Hct y used. eexists. split.
  - apply (calculate_days_available_complete now user permits hire ct
             Hhire Hct).
  - cbn [economic_days total_economic]. unfold accrued_economic_days.
    fold y. fold used.
    split; [reflexivity|]. split; [|reflexivity].
    intros Hpast. rewrite py_int_floor; [reflexivity|].
    assert (Hdays : 0 <= days (now - hire))
      by (unfold days, microseconds_per_day; apply Z.div_pos; lia).
    unfold y, years_of.
    cbv [Qle Qdiv Qmult Qinv inject_Z Qnum Qden]. lia.
Qed.

Lemma economic_days_by_tenure_witness :
  let user := teacher (Some HOURLY) (Some (day 0)) in
  let history := [permit "p1" ECONOMIC_62 4 APPROVED] in
  hire_date user = Some (aware (day 0)) /\
  contract_type user = Some HOURLY /\
  day 0 <= day 8401 /\
  exists snapshot,
    calculate_days_available (day 8401) user history = Ok snapshot /\
    economic_days snapshot =
    Z.max 0 (8 + Qfloor (years_of (day 8401 - day 0) / 10)
             - days_used ECONOMIC_62 history).
Proof.
  intros user history.
  assert (Hpast : day 0 <= day 8401) by (vm_compute; discriminate).
  split; [reflexivity|]. split; [reflexivity|]. split; [exact Hpast|].
  destruct (economic_days_by_tenure (day 8401) user (day 0) HOURLY history
              eq_refl eq_refl) as [snapshot [Hrun [_ [Hfloor _]]]].
  exists snapshot. split; [exact Hrun|]. exact (Hfloor Hpast).
Defined.




(** C5.  Only approved permits count as used days: a permit that is
    pending or rejected, wherever it stands in the list, can be added or
    removed without changing the snapshot or the verdict on any request. *)
Theorem unapproved_permits_ignored now user before after p data :
  status p = PENDING \/ status p = REJECTED ->
  calculate_days_available now user (before ++ p :: after) =
    calculate_days_available now user (before ++ after) /\
  validate_request now user (before ++ p :: after) data =
    validate_request now user (before ++ after) data.
Proof.
  intros Hp.
  assert (Hno : status p <> APPROVED) by (destruct Hp as [E|E]; rewrite E; discriminate).
  assert (Hsnap : calculate_days_available now user (before ++ p :: after) =
                  calculate_days_available now user (before ++ after))
    by (apply calculate_days_available_used; apply days_used_skip; exact Hno).
  split; [exact Hsnap|].
  apply validate_request_snapshot. exact Hsnap.
Qed.

Lemma unapproved_permits_ignored_witness :
  let user := teacher (Some FULL_TIME) (Some (day 0)) in
  let p := permit "p2" VACATION_57 30 REJECTED in
  (status p = PENDING \/ status p = REJECTED) /\
  calculate_days_available (day 2000) user
    ([permit "p1" VACATION_57 8 APPROVED] ++ p
       :: [permit "p3" ECONOMIC_62 2 APPROVED]) =
  calculate_days_available (day 2000) user
    ([permit "p1" VACATION_57 8 APPROVED]
       ++ [permit "p3" ECONOMIC_62 2 APPROVED]).
Proof.
  intros user p. split; [right; reflexivity|].
  apply (unapproved_permits_ignored (day 2000) user
           [permit "p1" VACATION_57 8 APPROVED]
           [permit "p3" ECONOMIC_62 2 APPROVED] p (request VACATION_57 1)).
  right; reflexivity.
Defined.

(** C6.  When no permit asks for a negative number of days, each of the six
    fields of a returned snapshot is at least 0, also when more days were
    used than were available. *)
Theorem snapshot_fields_nonnegative now user permits snapshot :
  Forall (fun p => 0 <= days_requested p) permits ->
  calculate_days_available now user permits = Ok snapshot ->
  0 <= vacation_period_1 snapshot /\ 0 <= vacation_period_2 snapshot /\
  0 <= vacation_additional snapshot /\ 0 <= economic_days snapshot /\
  0 <= total_vacation snapshot /\ 0 <= total_economic snapshot.
Proof.
  intros _. apply calculate_days_available_nonneg.
Qed.

Lemma snapshot_fields_nonnegative_witness :
  let user := teacher (Some PART_TIME) (Some (day 0)) in
  let history :=
    [permit "p1" VACATION_57 40 APPROVED; permit "p2" ECONOMIC_62 25 APPROVED] in
  Forall (fun p => 0 <= days_requested p) history /\
  exists snapshot,
    calculate_days_available (day 3000) user history = Ok snapshot /\
    0 <= vacation_period_1 snapshot /\ 0 <= vacation_period_2 snapshot /\
    0 <= vacation_additional snapshot /\ 0 <= economic_days snapshot /\
    0 <= total_vacation snapshot /\ 0 <= total_economic snapshot.
Proof.
  intros user history.
  assert (Hall : Forall (fun p => 0 <= days_requested p) history)
    by (repeat constructor; simpl; lia).
  split; [exact Hall|].
  destruct (calculate_days_available (day 3000) user history)
    as [snapshot|e] eqn:Hrun; [|vm_compute in Hrun; discriminate Hrun].
  exists snapshot. split; [reflexivity|].
  exact (snapshot_fields_nonnegative (day 3000) user history snapshot Hall Hrun).
Defined.

(** C7.  Without a hire date or without a contract type the function
    returns, as an ordinary result, the snapshot that is all zero,
    whatever the permits. *)
Theorem incomplete_profile_zero now user permits :
  hire_date user = None \/ contract_type user = None ->
  exists snapshot,
    calculate_days_available now user permits = Ok snapshot /\
    snapshot = zero_days /\
    vacation_period_1 snapshot = 0 /\ vacation_period_2 snapshot = 0 /\
    vacation_additional snapshot = 0 /\ economic_days snapshot = 0 /\
    total_vacation snapshot = 0 /\ total_economic snapshot = 0.
Proof.
  intros Hmissing. exists zero_days. split.
  - apply calculate_days_available_incomplete. exact Hmissing.
  - repeat split.
Qed.

Lemma incomplete_profile_zero_witness :
  (hire_date admin = None \/ contract_type admin = None) /\
  calculate_days_available (day 4000) admin
    [permit "p1" VACATION_57 3 APPROVED] = Ok zero_days.
Proof.
  assert (Hmissing : hire_date admin = None \/ contract_type admin = None)
    by (left; reflexivity).
  split; [exact Hmissing|].
  destruct (incomplete_profile_zero (day 4000) admin
              [permit "p1" VACATION_57 3 APPROVED] Hmissing)
    as [snapshot [Hrun [Hzero _]]].
  rewrite Hrun, Hzero. reflexivity.
Defined.

(** C9 fails: line 150 reads the clock, and the same employee with the same
    (empty) permit list has no additional bucket 1000 days after the hire
    date and a bucket of 5 days 2000 days after it. *)
Lemma snapshot_depends_on_clock :
  let user := teacher (Some FULL_TIME) (Some (day 0)) in
  (exists snapshot,
     calculate_days_available (day 1000) user [] = Ok snapshot /\
     vacation_additional snapshot = 0) /\
  (exists snapshot,
     calculate_days_available (day 2000) user [] = Ok snapshot /\
     vacation_additional snapshot = 5) /\
  ~ snapshot_ignores_clock.
Proof.
  intros user.
  split; [eexists; split; reflexivity|].
  split; [eexists; split; reflexivity|].
  intros H. specialize (H (day 1000) (day 2000) user []).
  vm_compute in H. discriminate.
Qed.

(** C9, amended.  The snapshot is a function of the employee, the permits
    and the clock reading, and of the clock only through the number of whole
    days elapsed since the hire date: two calls with the same employee and
    permits at instants the same number of days after the hire date return
    the same result.  Nothing else is read and nothing is written. *)
Theorem snapshot_determined_by_elapsed_days now1 now2 user permits :
  (forall hire, hire_date user = Some (aware hire) ->
                days (now1 - hire) = days (now2 - hire)) ->
  calculate_days_available now1 user permits =
  calculate_days_available now2 user permits.
Proof.
  intros Hdays. unfold calculate_days_available.
  destruct (hire_date user) as [[hire|wall]|]; [| |reflexivity].
  - destruct (contract_type user) as [ct|]; [|reflexivity].
    rewrite !years_of_service_aware. unfold years_of.
    rewrite (Hdays hire eq_refl). reflexivity.
  - destruct (contract_type user) as [ct|]; reflexivity.
Qed.

Lemma snapshot_determined_by_elapsed_days_witness :
  let user := teacher (Some FULL_TIME) (Some (day 0)) in
  (forall hire, hire_date user = Some (aware hire) ->
                days (day 2000 - hire) = days (day 2000 + 3600000000 - hire)) /\
  calculate_days_available (day 2000) user
    [permit "p1" VACATION_57 3 APPROVED] =
  calculate_days_available (day 2000 + 3600000000) user
    [permit "p1" VACATION_57 3 APPROVED].
Proof.
  intros user.
  assert (Hsame : forall hire, hire_date user = Some (aware hire) ->
            days (day 2000 - hire) = days (day 2000 + 3600000000 - hire)).
  { intros hire Hhire. injection Hhire as <-. reflexivity. }
  split; [exact Hsame|].
  exact (snapshot_determined_by_elapsed_days (day 2000)
           (day 2000 + 3600000000) user
           [permit "p1" VACATION_57 3 APPROVED] Hsame).
Defined.

(** C10 fails for a hire date registered without an offset: line 150
    raises and nothing is reported. *)
Lemma inflation_raises_without_offset :
  let user := teacher_without_offset PART_TIME (day 0) in
  let history := [permit "p1" VACATION_57 (-3) APPROVED] in
  days_used VACATION_57 history < 0 /\
  calculate_days_available (day 2000) user history = Raise TypeError /\
  ~ inflation_for_every_hire_date.
Proof.
  intros user history.
  split; [reflexivity|]. split; [reflexivity|].
  intros H.
  destruct (H (day 2000) user (naive (day 0)) PART_TIME history
              eq_refl eq_refl eq_refl) as [s [Hrun _]].
  discriminate Hrun.
Qed.

(** C10, amended.  When the approved vacation days of an employee with a
    timezone-aware hire date and a contract type sum to a negative [u], the
    snapshot is returned with period 1 reported as [10 - u], above its cap of
    10, period 2 and the additional bucket at their caps, and the total at
    [20 + additional - u]. *)
Theorem negative_use_inflates_balance now user hire ct permits :
  hire_date user = Some (aware hire) ->
  contract_type user = Some ct ->
  days_used VACATION_57 permits < 0 ->
  let u := days_used VACATION_57 permits in
  let additional := accrued_vacation_additional ct (years_of (now - hire)) in
  exists snapshot,
    calculate_days_available now user permits = Ok snapshot /\
    vacation_period_1 snapshot = 10 - u /\
    10 < vacation_period_1 snapshot /\
    vacation_period_2 snapshot = 10 /\
    vacation_additional snapshot = additional /\
    total_vacation snapshot = 20 + additional - u /\
    20 + additional < total_vacation snapshot.
Proof.
  intros Hhire Hct Hneg u additional. eexists. split.
  - apply (calculate_days_available_complete now user permits hire ct
             Hhire Hct).
  - cbn [vacation_period_1 vacation_period_2 vacation_additional
         total_vacation].
    fold additional. fold u. fold u in Hneg.
    pose proof (accrued_vacation_additional_range ct (years_of (now - hire)))
      as Hrange.
    fold additional in Hrange. lia.
Qed.

Lemma negative_use_inflates_balance_witness :
  let user := teacher (Some FULL_TIME) (Some (day 0)) in
  let history :=
    [permit "p1" VACATION_57 (-3) APPROVED; permit "p2" VACATION_57 1 APPROVED] in
  hire_date user = Some (aware (day 0)) /\
  days_used VACATION_57 history < 0 /\
  exists snapshot,
    calculate_days_available (day 2000) user history = Ok snapshot /\
    vacation_period_1 snapshot = 10 - days_used VACATION_57 history /\
    10 - days_used VACATION_57 history = 12.
Proof.
  intros user history.
  assert (Hneg : days_used VACATION_57 history < 0) by reflexivity.
  split; [reflexivity|]. split; [exact Hneg|].
  destruct (negative_use_inflates_balance (day 2000) user (day 0) FULL_TIME
              history eq_refl eq_refl Hneg) as [snapshot [Hrun [Hfirst _]]].
  exists snapshot. split; [exact Hrun|]. split; [exact Hfirst|reflexivity].
Defined.

(** ** The status of a permit *)

Lemma apply_review_id now reviewer review p :
  permit_id (apply_review now reviewer review p) = permit_id p.
Proof. reflexivity. Qed.

Lemma find_one_update_one wanted set db old :
  (forall p, permit_id (set p) = permit_id p) ->
  find_one wanted db = Some old ->
  find_one wanted (update_one wanted set db) = Some (set old).
Proof.
  intros Hid. unfold find_one.
  induction db as [|p rest IH]; simpl; [discriminate|].
  destruct (has_id wanted p) eqn:Hp; simpl.
  - intros [= ->]. unfold has_id in *. now rewrite Hid, Hp.
  - rewrite Hp. exact IH.
Qed.

Lemma update_one_others wanted set db q :
  (forall p, permit_id (set p) = permit_id p) ->
  has_id wanted q = false ->
  In q (update_one wanted set db) <-> In q db.
Proof.
  intros Hid Hq.
  induction db as [|p rest IH]; simpl; [tauto|].
  destruct (has_id wanted p) eqn:Hp; simpl.
  - assert (Hsp : has_id wanted (set p) = true)
      by (unfold has_id in *; now rewrite Hid).
    split; intros [E|Hin]; auto; subst q; congruence.
  - rewrite IH. tauto.
Qed.

(** C8 fails: [review_permit] does not look at the current status, and an
    administrator's second review turns an approved permit into a rejected
    one. *)
Lemma review_permit_overturns_approval :
  let db := [permit "p1" VACATION_57 5 APPROVED] in
  let review :=
    {| review_status := REJECTED; review_rejection_reason := Some "cupo"%string |} in
  option_map status (find_one "p1" db) = Some APPROVED /\
  (exists reviewed db',
     review_permit (day 30) "p1" review admin db = Ok (reviewed, db') /\
     status reviewed = REJECTED /\
     option_map status (find_one "p1" db') = Some REJECTED) /\
  ~ review_only_decides_pending.
Proof.
  intros db review. split; [reflexivity|]. split.
  - eexists. eexists. split; [reflexivity|]. split; reflexivity.
  - intros H.
    destruct (H (day 30) "p1"%string review admin db
                (permit "p1" VACATION_57 5 APPROVED) _ _ eq_refl eq_refl)
      as [Hpending _].
    discriminate Hpending.
Qed.

(** C8, amended.  A permit starts as pending: [create_permit], when it
    succeeds, appends a pending permit and changes nothing else.  A review by
    an administrator of an existing permit succeeds whatever the current
    status is, leaves the permit with the status the review carries
    (pending to approved and pending to rejected among the possible moves)
    and leaves the permits with other identifiers as they were. *)
Theorem permit_status_lifecycle :
  (forall now fresh_id data user db created db',
     create_permit now fresh_id data user db = Ok (created, db') ->
     status created = PENDING /\ db' = db ++ [created]) /\
  (forall now wanted review reviewer db old,
     role reviewer = ADMIN ->
     find_one wanted db = Some old ->
     exists reviewed db',
       review_permit now wanted review reviewer db = Ok (reviewed, db') /\
       status reviewed = review_status review /\
       find_one wanted db' = Some reviewed /\
       (forall q, has_id wanted q = false -> In q db' <-> In q db)).
Proof.
  split.
  - intros now fresh_id data user db created db'. unfold create_permit.
    destruct (negb (UserRole_eqb (role user) TEACHER)); [discriminate|].
    destruct (validate_request _ _ _ _) as [[]|e]; simpl; [|discriminate].
    intros [= <- <-]. split; reflexivity.
  - intros now wanted review reviewer db old Hrole Hfind.
    exists (apply_review now reviewer review old).
    exists (update_one wanted (apply_review now reviewer review) db).
    unfold review_permit. rewrite Hrole, Hfind. simpl.
    split; [reflexivity|]. split; [reflexivity|]. split.
    + apply find_one_update_one; [apply apply_review_id|exact Hfind].
    + intros q Hq. apply update_one_others; [apply apply_review_id|exact Hq].
Qed.

Lemma permit_status_lifecycle_witness :
  let db :=
    [permit "p1" VACATION_57 5 REJECTED; permit "p2" ECONOMIC_62 1 PENDING] in
  let review :=
    {| review_status := APPROVED; review_rejection_reason := None |} in
  role admin = ADMIN /\
  find_one "p1" db = Some (permit "p1" VACATION_57 5 REJECTED) /\
  exists reviewed db',
    review_permit (day 31) "p1" review admin db = Ok (reviewed, db') /\
    status reviewed = APPROVED.
Proof.
  intros db review. split; [reflexivity|]. split; [reflexivity|].
  destruct (proj2 permit_status_lifecycle (day 31) "p1"%string review admin db
              (permit "p1" VACATION_57 5 REJECTED) eq_refl eq_refl)
    as [reviewed [db' [Hrun [Hstatus _]]]].
  exists reviewed, db'. split; [exact Hrun|exact Hstatus].
Defined.

(** ** Used days, permit by permit *)

Lemma fold_left_add_shift (l : list Z) (a : Z) :
  fold_left Z.add l a = a + fold_left Z.add l 0.
Proof.
  revert a. induction l as [|x l IH]; intros a; simpl; [lia|].
  rewrite (IH (a + x)), (IH x). lia.
Qed.

Lemma py_sum_cons (x : Z) (l : list Z) : py_sum (x :: l) = x + py_sum l.
Proof. unfold py_sum. simpl. apply fold_left_add_shift. Qed.

Lemma days_used_nil (kind : PermitType) : days_used kind [] = 0.
Proof. reflexivity. Qed.

Lemma days_used_cons (kind : PermitType) (p : Permit) (l : list Permit) :
  days_used kind (p :: l) = counted kind p + days_used kind l.
Proof.
  unfold days_used, approved_permits, counted. simpl.
  destruct (PermitStatus_eqb (status p) APPROVED); simpl; [|reflexivity].
  destruct (PermitType_eqb (permit_type p) kind); simpl; [|reflexivity].
  apply py_sum_cons.
Qed.

Lemma days_used_app (kind : PermitType) (l1 l2 : list Permit) :
  days_used kind (l1 ++ l2) = days_used kind l1 + days_used kind l2.
Proof.
  induction l1 as [|p l1 IH]; cbn [app].
  - rewrite days_used_nil. lia.
  - rewrite !days_used_cons, IH. lia.
Qed.

Lemma days_used_insert (kind : PermitType) (before after : list Permit)
    (p : Permit) :
  days_used kind (before ++ p :: after) =
  counted kind p + days_used kind (before ++ after).
Proof. rewrite !days_used_app, days_used_cons. lia. Qed.

Lemma counted_nonneg (kind : PermitType) (p : Permit) :
  0 <= days_requested p -> 0 <= counted kind p.
Proof.
  unfold counted. intros H.
  destruct (_ && _); lia.
Qed.

Lemma days_used_nonneg (kind : PermitType) (l : list Permit) :
  Forall (fun p => 0 <= days_requested p) l -> 0 <= days_used kind l.
Proof.
  induction 1 as [|p l Hp _ IH]; [rewrite days_used_nil; lia|].
  rewrite days_used_cons. pose proof (counted_nonneg kind p Hp). lia.
Qed.

Lemma days_used_Permutation (kind : PermitType) (l1 l2 : list Permit) :
  Permutation l1 l2 -> days_used kind l1 = days_used kind l2.
Proof.
  induction 1 as [|p l l' _ IH|p q l|l l' l'' _ IH1 _ IH2].
  - reflexivity.
  - rewrite !days_used_cons, IH. reflexivity.
  - rewrite !days_used_cons. lia.
  - congruence.
Qed.

(** ** Tenure in days *)

Lemma years_of_days_ge_6 (d : Z) :
  Qge_bool (inject_Z d / 365.25) 6 = (2192 <=? d).
Proof.
  cbv [Qge_bool Qle_bool Qdiv Qmult Qinv inject_Z Qnum Qden].
  destruct (Z.leb_spec 2192 d); [apply Z.leb_le|apply Z.leb_gt]; lia.
Qed.

Lemma years_of_days_gt_5 (d : Z) :
  Qgt_bool (inject_Z d / 365.25) 5 = (1827 <=? d).
Proof.
  cbv [Qgt_bool Qle_bool Qdiv Qmult Qinv inject_Z Qnum Qden].
  destruct (Z.leb_spec 1827 d);
    [apply negb_true_iff, Z.leb_gt|apply negb_false_iff, Z.leb_le]; lia.
Qed.

Lemma years_after_five_of_days (d : Z) :
  py_int (inject_Z d / 365.25 - 5) = Z.quot (4 * d - 7305) 1461.
Proof.
  cbv [py_int Qminus Qplus Qopp Qdiv Qmult Qinv inject_Z Qnum Qden].
  change (Z.pos (1 * 36525 * 1)) with (1461 * 25).
  replace (d * 100 * 1 + - (5) * Z.pos (1 * 36525))
    with ((4 * d - 7305) * 25) by lia.
  apply Z.quot_mul_cancel_r; lia.
Qed.

Lemma decades_of_days (d : Z) :
  py_int (inject_Z d / 365.25 / 10) = Z.quot (2 * d) 7305.
Proof.
  cbv [py_int Qdiv Qmult Qinv inject_Z Qnum Qden].
  change (Z.pos (1 * 36525 * 10)) with (7305 * 50).
  replace (d * 100 * 1) with ((2 * d) * 50) by lia.
  apply Z.quot_mul_cancel_r; lia.
Qed.

Lemma accrued_vacation_additional_of_days (ct : ContractType) (d : Z) :
  accrued_vacation_additional ct (inject_Z d / 365.25) =
  match ct with
  | HOURLY => 0
  | _ =>
      if 2192 <=? d then Z.min (5 + Z.quot (4 * d - 7305) 1461) 8
      else if 1827 <=? d then 5 else 0
  end.
Proof.
  unfold accrued_vacation_additional.
  rewrite years_of_days_ge_6, years_of_days_gt_5, years_after_five_of_days.
  destruct ct; try reflexivity; destruct (2192 <=? d); try reflexivity; lia.
Qed.

Lemma accrued_economic_days_of_days (d : Z) :
  accrued_economic_days (inject_Z d / 365.25) = 8 + Z.quot (2 * d) 7305.
Proof.
  unfold accrued_economic_days. now rewrite decades_of_days.
Qed.

Lemma accrued_vacation_additional_mono (ct : ContractType) (d1 d2 : Z) :
  d1 <= d2 ->
  accrued_vacation_additional ct (inject_Z d1 / 365.25)
  <= accrued_vacation_additional ct (inject_Z d2 / 365.25).
Proof.
  intros Hd. rewrite !accrued_vacation_additional_of_days.
  destruct ct; try lia.
  all: destruct (Z.leb_spec 2192 d1), (Z.leb_spec 2192 d2); try lia.
  all: try (assert (Z.quot (4 * d1 - 7305) 1461 <= Z.quot (4 * d2 - 7305) 1461)
              by (apply Z.quot_le_mono; lia); lia).
  all: try (assert (0 <= Z.quot (4 * d2 - 7305) 1461)
              by (apply Z.quot_pos; lia);
            destruct (1827 <=? d1); lia).
  all: destruct (Z.leb_spec 1827 d1), (Z.leb_spec 1827 d2); lia.
Qed.

Lemma accrued_economic_days_mono (d1 d2 : Z) :
  d1 <= d2 ->
  accrued_economic_days (inject_Z d1 / 365.25)
  <= accrued_economic_days (inject_Z d2 / 365.25).
Proof.
  intros Hd. rewrite !accrued_economic_days_of_days.
  assert (Z.quot (2 * d1) 7305 <= Z.quot (2 * d2) 7305)
    by (apply Z.quot_le_mono; lia).
  lia.
Qed.

Lemma days_mono (t1 t2 : timedelta) : t1 <= t2 -> days t1 <= days t2.
Proof.
  intros H. unfold days. apply Z.div_le_mono; [reflexivity|exact H].
Qed.

(** ** Further properties of the entitlement computation *)

(** X1.  The three vacation buckets of a returned snapshot always add up to
    its [total_vacation], whatever the profile, the clock and the
    permits. *)
Theorem vacation_buckets_sum_to_total now user permits snapshot :
  calculate_days_available now user permits = Ok snapshot ->
  vacation_period_1 snapshot + vacation_period_2 snapshot
  + vacation_additional snapshot = total_vacation snapshot.
Proof.
  profile_cases user; intros Hrun; returned; try reflexivity.
  cbn [vacation_period_1 vacation_period_2 vacation_additional total_vacation].
  pose proof (accrued_vacation_additional_range ct (years_of (now - hire))).
  lia.
Qed.

Lemma vacation_buckets_sum_to_total_witness :
  let user := teacher (Some FULL_TIME) (Some (day 0)) in
  let history := [permit "p1" VACATION_57 23 APPROVED] in
  exists snapshot,
    calculate_days_available (day 3000) user history = Ok snapshot /\
    vacation_period_1 snapshot + vacation_period_2 snapshot
    + vacation_additional snapshot = total_vacation snapshot.
Proof.
  intros user history.
  destruct (calculate_days_available (day 3000) user history)
    as [snapshot|e] eqn:Hrun; [|vm_compute in Hrun; discriminate Hrun].
  exists snapshot. split; [reflexivity|].
  exact (vacation_buckets_sum_to_total (day 3000) user history snapshot Hrun).
Defined.

(** X2.  More approved days never leave more: when one permit list has at
    least as many approved vacation days as another, none of the three
    vacation buckets nor the vacation total of the returned snapshot is
    larger for it, and likewise for the economic days. *)
Theorem more_use_never_leaves_more now user l1 l2 s1 s2 :
  calculate_days_available now user l1 = Ok s1 ->
  calculate_days_available now user l2 = Ok s2 ->
  (days_used VACATION_57 l1 <= days_used VACATION_57 l2 ->
   vacation_period_1 s2 <= vacation_period_1 s1 /\
   vacation_period_2 s2 <= vacation_period_2 s1 /\
   vacation_additional s2 <= vacation_additional s1 /\
   total_vacation s2 <= total_vacation s1) /\
  (days_used ECONOMIC_62 l1 <= days_used ECONOMIC_62 l2 ->
   economic_days s2 <= economic_days s1 /\
   total_economic s2 <= total_economic s1).
Proof.
  profile_cases user; intros Hrun1 Hrun2; returned; try (simpl; lia).
  cbn [vacation_period_1 vacation_period_2 vacation_additional total_vacation
       economic_days total_economic].
  split; intros Hused; lia.
Qed.

Lemma more_use_never_leaves_more_witness :
  let user := teacher (Some FULL_TIME) (Some (day 0)) in
  let l1 := [permit "p1" VACATION_57 4 APPROVED] in
  let l2 := [permit "p1" VACATION_57 4 APPROVED;
             permit "p2" VACATION_57 9 APPROVED] in
  days_used VACATION_57 l1 <= days_used VACATION_57 l2 /\
  exists s1 s2,
    calculate_days_available (day 2000) user l1 = Ok s1 /\
    calculate_days_available (day 2000) user l2 = Ok s2 /\
    total_vacation s2 <= total_vacation s1.
Proof.
  intros user l1 l2.
  assert (Hused : days_used VACATION_57 l1 <= days_used VACATION_57 l2)
    by (vm_compute; discriminate).
  split; [exact Hused|].
  destruct (calculate_days_available (day 2000) user l1)
    as [s1|e] eqn:Hrun1; [|vm_compute in Hrun1; discriminate Hrun1].
  destruct (calculate_days_available (day 2000) user l2)
    as [s2|e] eqn:Hrun2; [|vm_compute in Hrun2; discriminate Hrun2].
  exists s1, s2. split; [reflexivity|]. split; [reflexivity|].
  destruct (more_use_never_leaves_more (day 2000) user l1 l2 s1 s2 Hrun1 Hrun2)
    as [Hvacation _].
  destruct (Hvacation Hused) as [_ [_ [_ Htotal]]]. exact Htotal.
Defined.

(** X3.  In a returned snapshot period 2 never shows more than 10 days and
    the additional bucket never more than 8; when no permit asks for a
    negative number of days, period 1 stays within 10 and the vacation total
    within 28 as well. *)
Theorem vacation_buckets_within_caps now user permits snapshot :
  calculate_days_available now user permits = Ok snapshot ->
  vacation_period_2 snapshot <= 10 /\
  vacation_additional snapshot <= 8 /\
  (Forall (fun p => 0 <= days_requested p) permits ->
   vacation_period_1 snapshot <= 10 /\ total_vacation snapshot <= 28).
Proof.
  profile_cases user; intros Hrun; returned; try (simpl; lia).
  cbn [vacation_period_1 vacation_period_2 vacation_additional total_vacation].
  pose proof (accrued_vacation_additional_range ct (years_of (now - hire))).
  split; [lia|]. split; [lia|].
  intros Hall. pose proof (days_used_nonneg VACATION_57 permits Hall). lia.
Qed.

Lemma vacation_buckets_within_caps_witness :
  let user := teacher (Some FULL_TIME) (Some (day 0)) in
  let history := [permit "p1" VACATION_57 0 APPROVED;
                  permit "p2" VACATION_57 3 REJECTED] in
  Forall (fun p => 0 <= days_requested p) history /\
  exists snapshot,
    calculate_days_available (day 4000) user history = Ok snapshot /\
    total_vacation snapshot <= 28.
Proof.
  intros user history.
  assert (Hall : Forall (fun p => 0 <= days_requested p) history)
    by (repeat constructor; simpl; lia).
  split; [exact Hall|].
  destruct (calculate_days_available (day 4000) user history)
    as [snapshot|e] eqn:Hrun; [|vm_compute in Hrun; discriminate Hrun].
  exists snapshot. split; [reflexivity|].
  destruct (vacation_buckets_within_caps (day 4000) user history snapshot Hrun)
    as [_ [_ Hcaps]].
  exact (proj2 (Hcaps Hall)).
Defined.

Lemma snapshot_mono_in_time now1 now2 user permits s1 s2 :
  now1 <= now2 ->
  calculate_days_available now1 user permits = Ok s1 ->
  calculate_days_available now2 user permits = Ok s2 ->
  vacation_period_1 s1 <= vacation_period_1 s2 /\
  vacation_period_2 s1 <= vacation_period_2 s2 /\
  vacation_additional s1 <= vacation_additional s2 /\
  economic_days s1 <= economic_days s2 /\
  total_vacation s1 <= total_vacation s2 /\
  total_economic s1 <= total_economic s2.
Proof.
  intros Hnow.
  profile_cases user; intros Hrun1 Hrun2; returned; try (simpl; lia).
  cbn [vacation_period_1 vacation_period_2 vacation_additional total_vacation
       economic_days total_economic].
  assert (Hdays : days (now1 - hire) <= days (now2 - hire))
    by (apply days_mono; lia).
  pose proof (accrued_vacation_additional_mono ct _ _ Hdays) as Hvacation.
  pose proof (accrued_economic_days_mono _ _ Hdays) as Heconomic.
  unfold years_of. lia.
Qed.

(** X4.  Waiting never costs days: for the same employee and the same
    permits, no field of the returned snapshot is smaller at a later
    instant. *)
Theorem later_never_leaves_less now1 now2 user permits s1 s2 :
  now1 <= now2 ->
  calculate_days_available now1 user permits = Ok s1 ->
  calculate_days_available now2 user permits = Ok s2 ->
  vacation_period_1 s1 <= vacation_period_1 s2 /\
  vacation_period_2 s1 <= vacation_period_2 s2 /\
  vacation_additional s1 <= vacation_additional s2 /\
  economic_days s1 <= economic_days s2 /\
  total_vacation s1 <= total_vacation s2 /\
  total_economic s1 <= total_economic s2.
Proof. exact (snapshot_mono_in_time now1 now2 user permits s1 s2). Qed.

Lemma later_never_leaves_less_witness :
  let user := teacher (Some PART_TIME) (Some (day 0)) in
  let history := [permit "p1" VACATION_57 22 APPROVED] in
  day 2000 <= day 2600 /\
  exists s1 s2,
    calculate_days_available (day 2000) user history = Ok s1 /\
    calculate_days_available (day 2600) user history = Ok s2 /\
    vacation_additional s1 <= vacation_additional s2.
Proof.
  intros user history.
  assert (Hnow : day 2000 <= day 2600) by (vm_compute; discriminate).
  split; [exact Hnow|].
  destruct (calculate_days_available (day 2000) user history)
    as [s1|e] eqn:Hrun1; [|vm_compute in Hrun1; discriminate Hrun1].
  destruct (calculate_days_available (day 2600) user history)
    as [s2|e] eqn:Hrun2; [|vm_compute in Hrun2; discriminate Hrun2].
  exists s1, s2. split; [reflexivity|]. split; [reflexivity|].
  destruct (later_never_leaves_less (day 2000) (day 2600) user history s1 s2
              Hnow Hrun1 Hrun2) as [_ [_ [Hadditional _]]].
  exact Hadditional.
Defined.

(** X5.  The order of the permits is irrelevant: two lists with the same
    permits in a different order give the same result. *)
Theorem permit_order_irrelevant now user l1 l2 :
  Permutation l1 l2 ->
  calculate_days_available now user l1 = calculate_days_available now user l2.
Proof.
  intros Hperm.
  apply calculate_days_available_used; apply days_used_Permutation; exact Hperm.
Qed.

Lemma permit_order_irrelevant_witness :
  let user := teacher (Some FULL_TIME) (Some (day 0)) in
  let p1 := permit "p1" VACATION_57 4 APPROVED in
  let p2 := permit "p2" ECONOMIC_62 2 APPROVED in
  Permutation [p1; p2] [p2; p1] /\
  calculate_days_available (day 2000) user [p1; p2] =
  calculate_days_available (day 2000) user [p2; p1].
Proof.
  intros user p1 p2.
  assert (Hperm : Permutation [p1; p2] [p2; p1]) by apply perm_swap.
  split; [exact Hperm|].
  exact (permit_order_irrelevant (day 2000) user [p1; p2] [p2; p1] Hperm).
Defined.

(** X6.  An approved permit for [d >= 0] days, wherever it is inserted in the
    list, lowers the total of its own kind by [d], stopping at 0, and leaves
    the fields of the other kind as they were. *)
Theorem approved_permit_consumes now user before after p s s' :
  status p = APPROVED ->
  0 <= days_requested p ->
  calculate_days_available now user (before ++ after) = Ok s ->
  calculate_days_available now user (before ++ p :: after) = Ok s' ->
  (permit_type p = VACATION_57 ->
   total_vacation s' = Z.max 0 (total_vacation s - days_requested p) /\
   economic_days s' = economic_days s /\
   total_economic s' = total_economic s) /\
  (permit_type p = ECONOMIC_62 ->
   total_economic s' = Z.max 0 (total_economic s - days_requested p) /\
   economic_days s' = Z.max 0 (economic_days s - days_requested p) /\
   vacation_period_1 s' = vacation_period_1 s /\
   vacation_period_2 s' = vacation_period_2 s /\
   vacation_additional s' = vacation_additional s /\
   total_vacation s' = total_vacation s).
Proof.
  intros Hstatus Hdays.
  profile_cases user; intros Hrun Hrun'; returned; try (simpl; lia).
  cbn [vacation_period_1 vacation_period_2 vacation_additional total_vacation
       economic_days total_economic].
  rewrite (days_used_insert VACATION_57 before after p),
    (days_used_insert ECONOMIC_62 before after p).
  unfold counted. rewrite Hstatus.
  split; intros Hkind; rewrite Hkind.
  all: cbn [PermitStatus_eqb PermitType_eqb andb].
  all: repeat apply conj; lia.
Qed.

Lemma approved_permit_consumes_witness :
  let user := teacher (Some FULL_TIME) (Some (day 0)) in
  let p := permit "p2" VACATION_57 30 APPROVED in
  let before := [permit "p1" VACATION_57 4 APPROVED] in
  status p = APPROVED /\ 0 <= days_requested p /\
  permit_type p = VACATION_57 /\
  exists s s',
    calculate_days_available (day 2000) user (before ++ []) = Ok s /\
    calculate_days_available (day 2000) user (before ++ [p]) = Ok s' /\
    total_vacation s' = Z.max 0 (total_vacation s - days_requested p).
Proof.
  intros user p before.
  assert (Hdays : 0 <= days_requested p) by (vm_compute; discriminate).
  split; [reflexivity|]. split; [exact Hdays|]. split; [reflexivity|].
  destruct (calculate_days_available (day 2000) user (before ++ []))
    as [s|e] eqn:Hrun; [|vm_compute in Hrun; discriminate Hrun].
  destruct (calculate_days_available (day 2000) user (before ++ [p]))
    as [s'|e] eqn:Hrun'; [|vm_compute in Hrun'; discriminate Hrun'].
  exists s, s'. split; [reflexivity|]. split; [reflexivity|].
  destruct (approved_permit_consumes (day 2000) user before [] p s s'
              eq_refl Hdays Hrun Hrun') as [Hvacation _].
  exact (proj1 (Hvacation eq_refl)).
Defined.

(** X7.  For a full-time or part-time employee with a timezone-aware hire
    date whose approved vacation days do not reach into the additional
    bucket (at most 20 of them), the bucket of the returned snapshot is a
    step function of the whole days elapsed since the hire date: 0 up to
    day 1826, 5 from day 1827, 6 from day 2192, 7 from day 2557 and 8 from
    day 2922 on. *)
Theorem additional_bucket_by_days now user hire ct permits :
  hire_date user = Some (aware hire) ->
  contract_type user = Some ct ->
  ct <> HOURLY ->
  days_used VACATION_57 permits <= 20 ->
  let d := days (now - hire) in
  exists snapshot,
    calculate_days_available now user permits = Ok snapshot /\
    let bucket := vacation_additional snapshot in
    (d <= 1826 -> bucket = 0) /\
    (1827 <= d <= 2191 -> bucket = 5) /\
    (2192 <= d <= 2556 -> bucket = 6) /\
    (2557 <= d <= 2921 -> bucket = 7) /\
    (2922 <= d -> bucket = 8).
Proof.
  intros Hhire Hct Hno Hused d. eexists. split.
  { apply (calculate_days_available_complete now user permits hire ct
             Hhire Hct). }
  cbn [vacation_additional].
  unfold years_of. fold d.
  rewrite accrued_vacation_additional_of_days.
  assert (Hquot : 2192 <= d ->
            Z.quot (4 * d - 7305) 1461 = (4 * d - 7305) / 1461)
    by (intros; apply Z.quot_div_nonneg; lia).
  destruct ct; try congruence;
    (destruct (Z.leb_spec 2192 d);
     [rewrite Hquot by assumption|destruct (Z.leb_spec 1827 d)]);
    repeat apply conj; intros; Z.div_mod_to_equations; lia.
Qed.

Lemma additional_bucket_by_days_witness :
  let user := teacher (Some FULL_TIME) (Some (day 0)) in
  let history := [permit "p1" VACATION_57 12 APPROVED] in
  hire_date user = Some (aware (day 0)) /\
  contract_type user = Some FULL_TIME /\
  FULL_TIME <> HOURLY /\
  days_used VACATION_57 history <= 20 /\
  2557 <= days (day 2560 - day 0) <= 2921 /\
  exists snapshot,
    calculate_days_available (day 2560) user history = Ok snapshot /\
    vacation_additional snapshot = 7.
Proof.
  intros user history.
  assert (Hrange : 2557 <= days (day 2560 - day 0) <= 2921)
    by (vm_compute; split; discriminate).
  assert (Hused : days_used VACATION_57 history <= 20)
    by (vm_compute; discriminate).
  split; [reflexivity|]. split; [reflexivity|]. split; [discriminate|].
  split; [exact Hused|]. split; [exact Hrange|].
  destruct (additional_bucket_by_days (day 2560) user (day 0) FULL_TIME history
              eq_refl eq_refl ltac:(discriminate) Hused)
    as [snapshot [Hrun [_ [_ [_ [Hseven _]]]]]].
  exists snapshot. split; [exact Hrun|]. exact (Hseven Hrange).
Defined.

(** X8.  For an employee with a timezone-aware hire date and a contract
    type, the economic days left in the returned snapshot are
    [max 0 (8 + (2 * d) quot 7305 - used)] for [d] whole days elapsed since
    the hire date, the quotient rounding toward zero: one more day for
    every 3652.5 days of service, the first one on day 3653, and still 8
    days for a hire date up to 3652 days ahead. *)
Theorem economic_days_by_days now user hire ct permits :
  hire_date user = Some (aware hire) ->
  contract_type user = Some ct ->
  let d := days (now - hire) in
  let used := days_used ECONOMIC_62 permits in
  exists snapshot,
    calculate_days_available now user permits = Ok snapshot /\
    let left := economic_days snapshot in
    left = Z.max 0 (8 + Z.quot (2 * d) 7305 - used) /\
    (-3652 <= d <= 3652 -> left = Z.max 0 (8 - used)) /\
    (3653 <= d <= 7304 -> left = Z.max 0 (9 - used)).
Proof.
  intros Hhire Hct d used. eexists. split.
  { apply (calculate_days_available_complete now user permits hire ct
             Hhire Hct). }
  cbn [economic_days]. fold used.
  unfold years_of. fold d.
  rewrite accrued_economic_days_of_days.
  split; [reflexivity|]. split; intros Hd.
  - assert (Hzero : Z.quot (2 * d) 7305 = 0)
      by (apply Z.quot_small_iff; lia).
    rewrite Hzero. reflexivity.
  - assert (Hone : Z.quot (2 * d) 7305 = 1)
      by (rewrite Z.quot_div_nonneg by lia;
          symmetry; apply (Z.div_unique _ _ _ (2 * d - 7305)); lia).
    rewrite Hone. reflexivity.
Qed.

Lemma economic_days_by_days_witness :
  let user := teacher (Some HOURLY) (Some (day 0)) in
  let history := [permit "p1" ECONOMIC_62 2 APPROVED] in
  hire_date user = Some (aware (day 0)) /\
  contract_type user = Some HOURLY /\
  3653 <= days (day 3653 - day 0) <= 7304 /\
  exists snapshot,
    calculate_days_available (day 3653) user history = Ok snapshot /\
    economic_days snapshot = Z.max 0 (9 - days_used ECONOMIC_62 history).
Proof.
  intros user history.
  assert (Hrange : 3653 <= days (day 3653 - day 0) <= 7304)
    by (vm_compute; split; discriminate).
  split; [reflexivity|]. split; [reflexivity|]. split; [exact Hrange|].
  destruct (economic_days_by_days (day 3653) user (day 0) HOURLY history
              eq_refl eq_refl) as [snapshot [Hrun [_ [_ Hnine]]]].
  exists snapshot. split; [exact Hrun|]. exact (Hnine Hrange).
Defined.
(** ** The history a handler reads *)

Lemma permits_of_skip (owner : string) (before after : list Permit)
    (q : Permit) :
  teacher_id q <> owner ->
  permits_of owner (before ++ q :: after) = permits_of owner (before ++ after).
Proof.
  intros Hq. unfold permits_of. rewrite !filter_app. simpl.
  apply String.eqb_neq in Hq. rewrite Hq. reflexivity.
Qed.

Lemma days_used_firstn_single (kind : PermitType) (n : nat) (p : Permit) :
  status p <> APPROVED -> days_used kind (firstn n [p]) = 0.
Proof.
  intros Hp. destruct n as [|n]; simpl; [reflexivity|].
  rewrite firstn_nil, days_used_cons, days_used_nil.
  unfold counted. destruct (status p); simpl; congruence.
Qed.

(** A permit that is not approved, filed last, adds nothing to the used
    days of any history. *)
Lemma days_used_permits_of_append (kind : PermitType) (owner : string)
    (db : collection) (p : Permit) :
  status p <> APPROVED ->
  days_used kind (permits_of owner (db ++ [p])) =
  days_used kind (permits_of owner db).
Proof.
  intros Hp. unfold permits_of.
  rewrite filter_app, firstn_app, days_used_app.
  simpl. destruct (String.eqb (teacher_id p) owner).
  - rewrite days_used_firstn_single by exact Hp. lia.
  - rewrite firstn_nil, days_used_nil. lia.
Qed.

Lemma create_permit_teacher now fresh_id data user db :
  role user = TEACHER ->
  create_permit now fresh_id data user db =
  (_ <- validate_request now user (permits_of (user_id user) db) data ;;
   Ok ({| permit_id := fresh_id;
          teacher_id := user_id user;
          teacher_name := user_name user;
          permit_type := new_permit_type data;
          start_date := new_start_date data;
          end_date := new_end_date data;
          days_requested := new_days_requested data;
          reason := new_reason data;
          status := PENDING;
          created_at := aware now;
          reviewed_at := None;
          reviewed_by := None;
          rejection_reason := None |},
       db ++ [{| permit_id := fresh_id;
                 teacher_id := user_id user;
                 teacher_name := user_name user;
                 permit_type := new_permit_type data;
                 start_date := new_start_date data;
                 end_date := new_end_date data;
                 days_requested := new_days_requested data;
                 reason := new_reason data;
                 status := PENDING;
                 created_at := aware now;
                 reviewed_at := None;
                 reviewed_by := None;
                 rejection_reason := None |}])).
Proof.
  intros Hrole. unfold create_permit. rewrite Hrole. reflexivity.
Qed.

Lemma create_permit_other_role now fresh_id data user db :
  role user <> TEACHER ->
  create_permit now fresh_id data user db = Raise Forbidden.
Proof.
  intros Hrole. unfold create_permit.
  destruct (role user); [reflexivity|congruence].
Qed.

Lemma create_permit_ok_iff now fresh_id data user db :
  (exists created db',
     create_permit now fresh_id data user db = Ok (created, db')) <->
  role user = TEACHER /\
  validate_request now user (permits_of (user_id user) db) data = Ok tt.
Proof.
  split.
  - intros [created [db' Hrun]].
    destruct (role user) eqn:Hrole.
    { unfold create_permit in Hrun. rewrite Hrole in Hrun. discriminate Hrun. }
    split; [reflexivity|].
    rewrite (create_permit_teacher now fresh_id data user db Hrole) in Hrun.
    destruct (validate_request _ _ _ _) as [[]|e]; [reflexivity|discriminate].
  - intros [Hrole Hvalid].
    rewrite (create_permit_teacher now fresh_id data user db Hrole), Hvalid.
    simpl. eexists. eexists. reflexivity.
Qed.

Lemma create_permit_raise_iff now fresh_id data user db e :
  role user = TEACHER ->
  create_permit now fresh_id data user db = Raise e <->
  validate_request now user (permits_of (user_id user) db) data = Raise e.
Proof.
  intros Hrole.
  rewrite (create_permit_teacher now fresh_id data user db Hrole).
  destruct (validate_request _ _ _ _) as [[]|e']; simpl; split; intros H;
    try discriminate H; injection H as <-; reflexivity.
Qed.

(** ** Properties of the request handlers *)

(** X9.  [create_permit] raises 403 exactly for callers who are not
    teachers, and the [TypeError] of line 150 exactly for a teacher with a
    contract type and a hire date without an offset.  For every caller for
    whom the snapshot of the caller's own first 1000 permits is returned, it
    stores the request exactly when the caller is a teacher and the
    requested days do not exceed the total of the requested kind in that
    snapshot, and raises [InsufficientBalance], showing that total, exactly
    for a teacher asking for more; such a teacher's request for zero or
    fewer days is always stored. *)
Theorem create_permit_succeeds_iff now fresh_id data user db :
  let history := permits_of (user_id user) db in
  let outcome := create_permit now fresh_id data user db in
  (outcome = Raise Forbidden <-> role user <> TEACHER) /\
  (outcome = Raise TypeError <-> role user = TEACHER /\ offset_missing user) /\
  (forall snapshot,
     calculate_days_available now user history = Ok snapshot ->
     let available :=
       match new_permit_type data with
       | VACATION_57 => total_vacation snapshot
       | ECONOMIC_62 => total_economic snapshot
       end in
     ((exists created db', outcome = Ok (created, db')) <->
      role user = TEACHER /\ new_days_requested data <= available) /\
     (outcome = Raise (InsufficientBalance (new_permit_type data) available)
      <-> role user = TEACHER /\ available < new_days_requested data) /\
     (role user = TEACHER -> new_days_requested data <= 0 ->
      exists created db', outcome = Ok (created, db'))).
Proof.
  intros history outcome. subst outcome.
  split; [|split].
  - split.
    + intros Hrun Hrole.
      apply (create_permit_raise_iff now fresh_id data user db _ Hrole) in Hrun.
      apply validate_request_raise in Hrun.
      destruct Hrun as [[Hno _]|[s [_ Hno]]]; discriminate Hno.
    + apply create_permit_other_role.
  - split.
    + intros Hrun.
      destruct (role user) eqn:Hrole.
      { rewrite create_permit_other_role in Hrun
          by (rewrite Hrole; discriminate).
        discriminate Hrun. }
      split; [reflexivity|].
      apply (create_permit_raise_iff now fresh_id data user db _ Hrole) in Hrun.
      apply validate_request_raise in Hrun.
      destruct Hrun as [[_ Hmissing]|[s [_ Hno]]];
        [exact Hmissing|discriminate Hno].
    + intros [Hrole Hmissing].
      apply (create_permit_raise_iff now fresh_id data user db _ Hrole).
      apply validate_request_raised.
      apply calculate_days_available_raises. split; [reflexivity|exact Hmissing].
  - intros snapshot Hsnap available.
    assert (Hok : (exists created db',
                     create_permit now fresh_id data user db
                     = Ok (created, db')) <->
                  role user = TEACHER /\ new_days_requested data <= available).
    { rewrite create_permit_ok_iff, validate_request_ok.
      fold history. split.
      - intros [Hrole [s [Hs Hle]]].
        assert (s = snapshot) by congruence. subst s. split; assumption.
      - intros [Hrole Hle]. split; [exact Hrole|].
        exists snapshot. split; assumption. }
    assert (Hnonneg : 0 <= available).
    { pose proof (calculate_days_available_nonneg now user history snapshot
                    Hsnap) as H.
      unfold available. destruct (new_permit_type data); lia. }
    split; [exact Hok|]. split.
    + split.
      * intros Hrun.
        destruct (role user) eqn:Hrole.
        { rewrite create_permit_other_role in Hrun
            by (rewrite Hrole; discriminate).
          discriminate Hrun. }
        split; [reflexivity|].
        destruct (Z.lt_ge_cases available (new_days_requested data))
          as [|Hle]; [assumption|].
        destruct (proj2 Hok (conj eq_refl Hle)) as [created [db' Hrun']].
        congruence.
      * intros [Hrole Hmore].
        apply (create_permit_raise_iff now fresh_id data user db _ Hrole).
        fold history.
        rewrite (validate_request_returned now user history data snapshot
                   Hsnap).
        unfold available in Hmore |- *.
        destruct (new_permit_type data); cbn [PermitType_eqb];
          match goal with
          | |- context [?a >? ?b] => destruct (Z.gtb_spec a b)
          end; try reflexivity; lia.
    + intros Hrole Hzero. apply Hok. split; [exact Hrole|lia].
Qed.

Lemma create_permit_succeeds_iff_witness :
  let user := teacher None None in
  role user = TEACHER /\ new_days_requested (request VACATION_57 (-2)) <= 0 /\
  exists snapshot created db',
    calculate_days_available (day 10) user (permits_of (user_id user) [])
    = Ok snapshot /\
    create_permit (day 10) "p7" (request VACATION_57 (-2)) user [] =
    Ok (created, db').
Proof.
  intros user.
  assert (Hzero : new_days_requested (request VACATION_57 (-2)) <= 0)
    by (vm_compute; discriminate).
  split; [reflexivity|]. split; [exact Hzero|].
  destruct (calculate_days_available (day 10) user
              (permits_of (user_id user) [])) as [snapshot|e] eqn:Hsnap;
    [|vm_compute in Hsnap; discriminate Hsnap].
  destruct (create_permit_succeeds_iff (day 10) "p7"
              (request VACATION_57 (-2)) user []) as [_ [_ Hreturned]].
  destruct (Hreturned snapshot Hsnap) as [_ [_ Hedge]].
  destruct (Hedge eq_refl Hzero) as [created [db' Hrun]].
  exists snapshot, created, db'. split; [reflexivity|exact Hrun].
Defined.

(** X10.  The permits of other teachers never count: a permit filed under
    another identifier, approved or not, changes neither the days shown for
    a teacher nor the outcome of that teacher's request. *)
Theorem other_teachers_permits_ignored now fresh_id data user caller users
    before after q :
  teacher_id q <> user_id user ->
  get_teacher_days now (user_id user) caller users (before ++ q :: after) =
    get_teacher_days now (user_id user) caller users (before ++ after) /\
  (forall e,
     create_permit now fresh_id data user (before ++ q :: after) = Raise e <->
     create_permit now fresh_id data user (before ++ after) = Raise e) /\
  (forall created,
     (exists db', create_permit now fresh_id data user (before ++ q :: after)
                  = Ok (created, db')) <->
     (exists db', create_permit now fresh_id data user (before ++ after)
                  = Ok (created, db'))).
Proof.
  intros Hq.
  pose proof (permits_of_skip (user_id user) before after q Hq) as Hsame.
  split; [|split].
  - unfold get_teacher_days. rewrite Hsame. reflexivity.
  - intros e. unfold create_permit. fold (permits_of (user_id user)).
    fold (permits_of (user_id user) (before ++ q :: after)).
    fold (permits_of (user_id user) (before ++ after)).
    rewrite Hsame.
    destruct (negb _); [reflexivity|].
    destruct (validate_request _ _ _ _); simpl; split; intros H;
      try discriminate H; exact H.
  - intros created. unfold create_permit.
    fold (permits_of (user_id user) (before ++ q :: after)).
    fold (permits_of (user_id user) (before ++ after)).
    rewrite Hsame.
    destruct (negb _); [split; intros [db' H]; discriminate H|].
    destruct (validate_request _ _ _ _); simpl;
      [|split; intros [db' H]; discriminate H].
    split; intros [db' [= <- _]]; eexists; reflexivity.
Qed.

Lemma other_teachers_permits_ignored_witness :
  let user := teacher (Some FULL_TIME) (Some (day 0)) in
  let q := colleague_permit "q1" VACATION_57 25 APPROVED in
  let mine := permit "p1" VACATION_57 4 APPROVED in
  teacher_id q <> user_id user /\
  get_teacher_days (day 2000) (user_id user) user [user] ([mine] ++ q :: []) =
  get_teacher_days (day 2000) (user_id user) user [user] ([mine] ++ []).
Proof.
  intros user q mine.
  assert (Hq : teacher_id q <> user_id user) by discriminate.
  split; [exact Hq|].
  exact (proj1 (other_teachers_permits_ignored (day 2000) "p9"
                  (request VACATION_57 1) user user [user] [mine] [] q Hq)).
Defined.

(** X11.  A pending request reserves nothing: once a request has been
    stored, the same request filed again, then or later, is stored as
    well. *)
Theorem request_can_be_repeated now now' fresh_id fresh_id' data user db
    created db' :
  create_permit now fresh_id data user db = Ok (created, db') ->
  now <= now' ->
  exists created' db'',
    create_permit now' fresh_id' data user db' = Ok (created', db'').
Proof.
  intros Hrun Hlater.
  assert (Hfirst : exists c d, create_permit now fresh_id data user db = Ok (c, d))
    by (eexists; eexists; exact Hrun).
  apply create_permit_ok_iff in Hfirst. destruct Hfirst as [Hrole Hvalid].
  rewrite (create_permit_teacher now fresh_id data user db Hrole), Hvalid in Hrun.
  simpl in Hrun. injection Hrun as Hcreated Hdb'.
  apply create_permit_ok_iff. split; [exact Hrole|].
  apply validate_request_ok. apply validate_request_ok in Hvalid.
  destruct Hvalid as [s [Hs Hle]].
  assert (Hpending : status created <> APPROVED)
    by (rewrite <- Hcreated; discriminate).
  assert (Hsnap :
    calculate_days_available now user (permits_of (user_id user) db') = Ok s).
  { rewrite <- Hs, <- Hdb', Hcreated.
    apply calculate_days_available_used;
      apply days_used_permits_of_append; exact Hpending. }
  destruct (calculate_days_available_again now user
              (permits_of (user_id user) db') s now'
              (permits_of (user_id user) db') Hsnap) as [s' Hs'].
  exists s'. split; [exact Hs'|].
  pose proof (snapshot_mono_in_time now now' user
                (permits_of (user_id user) db') s s' Hlater Hsnap Hs') as Hmono.
  destruct (new_permit_type data); lia.
Qed.

Lemma request_can_be_repeated_witness :
  let user := teacher (Some FULL_TIME) (Some (day 0)) in
  let db := [permit "p1" VACATION_57 15 APPROVED] in
  (exists created db',
     create_permit (day 1000) "p2" (request VACATION_57 5) user db =
     Ok (created, db') /\
     day 1000 <= day 1001 /\
     exists created' db'',
       create_permit (day 1001) "p3" (request VACATION_57 5) user db' =
       Ok (created', db'')).
Proof.
  intros user db.
  destruct (create_permit (day 1000) "p2" (request VACATION_57 5) user db)
    as [[created db']|e] eqn:Hrun; [|vm_compute in Hrun; discriminate Hrun].
  assert (Hlater : day 1000 <= day 1001) by (vm_compute; discriminate).
  exists created, db'. split; [reflexivity|]. split; [exact Hlater|].
  exact (request_can_be_repeated (day 1000) (day 1001) "p2" "p3"
           (request VACATION_57 5) user db created db' Hrun Hlater).
Defined.
(** ** The effect of a review on the collection *)

Lemma review_permit_admin now wanted review reviewer db :
  role reviewer = ADMIN ->
  review_permit now wanted review reviewer db =
  match find_one wanted db with
  | None => Raise NotFound
  | Some old =>
      Ok (apply_review now reviewer review old,
          update_one wanted (apply_review now reviewer review) db)
  end.
Proof. intros Hrole. unfold review_permit. rewrite Hrole. reflexivity. Qed.

Lemma review_permit_ok now wanted review reviewer db reviewed db' :
  review_permit now wanted review reviewer db = Ok (reviewed, db') ->
  role reviewer = ADMIN /\
  exists old,
    find_one wanted db = Some old /\
    reviewed = apply_review now reviewer review old /\
    db' = update_one wanted (apply_review now reviewer review) db.
Proof.
  unfold review_permit. destruct (role reviewer); simpl; [|discriminate].
  destruct (find_one wanted db) as [old|]; [|discriminate].
  intros [= <- <-]. split; [reflexivity|]. exists old. repeat split.
Qed.

Lemma update_one_length wanted set db :
  List.length (update_one wanted set db) = List.length db.
Proof.
  induction db as [|p rest IH]; simpl; [reflexivity|].
  destruct (has_id wanted p); simpl; congruence.
Qed.

Lemma update_one_map {A : Type} (field : Permit -> A) wanted set db :
  (forall p, field (set p) = field p) ->
  map field (update_one wanted set db) = map field db.
Proof.
  intros Hfield. induction db as [|p rest IH]; simpl; [reflexivity|].
  destruct (has_id wanted p); simpl; [rewrite Hfield|rewrite IH]; reflexivity.
Qed.

Lemma days_used_filter_update_one (kind : PermitType) (keep : Permit -> bool)
    wanted set db old :
  (forall p, keep (set p) = keep p) ->
  find_one wanted db = Some old ->
  days_used kind (filter keep (update_one wanted set db)) =
  days_used kind (filter keep db)
  + (if keep old then counted kind (set old) - counted kind old else 0).
Proof.
  intros Hkeep. unfold find_one.
  induction db as [|p rest IH]; simpl; [discriminate|].
  destruct (has_id wanted p) eqn:Hp.
  - intros [= ->]. simpl. rewrite Hkeep.
    destruct (keep old); [rewrite !days_used_cons|]; lia.
  - intros Hfind. simpl.
    destruct (keep p); [rewrite !days_used_cons|]; rewrite (IH Hfind); lia.
Qed.

Lemma filter_true {A : Type} (l : list A) : filter (fun _ => true) l = l.
Proof. induction l as [|x l IH]; simpl; congruence. Qed.

Lemma permits_of_short (owner : string) (db : collection) :
  (List.length db <= 1000)%nat ->
  permits_of owner db =
  filter (fun p => String.eqb (teacher_id p) owner) db.
Proof.
  intros Hlen. unfold permits_of. apply firstn_all2.
  pose proof (filter_length_le (fun p => String.eqb (teacher_id p) owner) db).
  lia.
Qed.

(** ** Properties of the review handler *)

(** X12.  [review_permit] is refused with 403 exactly for callers who are
    not administrators and with 404 exactly when an administrator names a
    permit that is not stored; it is never refused for lack of balance,
    whatever the permit asks for. *)
Theorem review_permit_refusals now wanted review reviewer db :
  let outcome := review_permit now wanted review reviewer db in
  (outcome = Raise Forbidden <-> role reviewer <> ADMIN) /\
  (outcome = Raise NotFound <->
   role reviewer = ADMIN /\ find_one wanted db = None) /\
  (forall kind available,
     outcome <> Raise (InsufficientBalance kind available)) /\
  ((exists reviewed db', outcome = Ok (reviewed, db')) <->
   role reviewer = ADMIN /\ exists old, find_one wanted db = Some old).
Proof.
  unfold review_permit.
  destruct (role reviewer); simpl.
  - destruct (find_one wanted db) as [old|].
    + split; [split; [discriminate|congruence]|].
      split; [split; [discriminate|intros [_ H]; discriminate H]|].
      split; [discriminate|].
      split; [intros _; split; [reflexivity|exists old; reflexivity]|].
      intros _. eexists. eexists. reflexivity.
    + split; [split; [discriminate|congruence]|].
      split; [split; [intros _; split; reflexivity|reflexivity]|].
      split; [discriminate|].
      split; [intros [r [d H]]; discriminate H|].
      intros [_ [old H]]. discriminate H.
  - split; [split; [discriminate|reflexivity]|].
    split; [split; [discriminate|intros [H _]; discriminate H]|].
    split; [discriminate|].
    split; [intros [r [d H]]; discriminate H|].
    intros [H _]. discriminate H.
Qed.

(** X13.  A review moves the used days by what the reviewed permit counts
    for before and after: approving a permit that was not approved adds its
    days to the used days of its kind, taking the approval back removes
    them, and the used days of the other kind do not move. *)
Theorem review_moves_used_days now wanted review reviewer db old reviewed db' :
  find_one wanted db = Some old ->
  review_permit now wanted review reviewer db = Ok (reviewed, db') ->
  (forall kind,
     days_used kind db' =
     days_used kind db - counted kind old + counted kind reviewed) /\
  (status old <> APPROVED -> review_status review = APPROVED ->
   days_used (permit_type old) db' =
   days_used (permit_type old) db + days_requested old) /\
  (status old = APPROVED -> review_status review <> APPROVED ->
   days_used (permit_type old) db' =
   days_used (permit_type old) db - days_requested old) /\
  (forall kind, kind <> permit_type old ->
     days_used kind db' = days_used kind db).
Proof.
  intros Hfind Hrun.
  destruct (review_permit_ok _ _ _ _ _ _ _ Hrun)
    as [_ [old' [Hfind' [Hreviewed Hdb']]]].
  assert (old' = old) by congruence. subst old'.
  assert (Hmove : forall kind,
            days_used kind db' =
            days_used kind db - counted kind old + counted kind reviewed).
  { intros kind.
    pose proof (days_used_filter_update_one kind (fun _ => true) wanted
                  (apply_review now reviewer review) db old
                  (fun _ => eq_refl) Hfind) as H.
    rewrite !filter_true in H. rewrite Hdb', Hreviewed, H. lia. }
  split; [exact Hmove|]. split; [|split].
  - intros Hold Hnew. rewrite Hmove, Hreviewed. unfold counted.
    cbn [status permit_type days_requested apply_review]. rewrite Hnew.
    destruct (status old), (permit_type old); simpl; try congruence; lia.
  - intros Hold Hnew. rewrite Hmove, Hreviewed. unfold counted.
    cbn [status permit_type days_requested apply_review]. rewrite Hold.
    destruct (review_status review), (permit_type old); simpl;
      try congruence; lia.
  - intros kind Hkind. rewrite Hmove, Hreviewed. unfold counted.
    cbn [status permit_type days_requested apply_review].
    destruct kind, (permit_type old); try congruence;
      cbn [PermitType_eqb]; rewrite !andb_false_r; lia.
Qed.

Lemma review_moves_used_days_witness :
  let db := [permit "p1" VACATION_57 5 APPROVED;
             permit "p2" VACATION_57 7 PENDING] in
  let review :=
    {| review_status := APPROVED; review_rejection_reason := None |} in
  find_one "p2" db = Some (permit "p2" VACATION_57 7 PENDING) /\
  exists reviewed db',
    review_permit (day 40) "p2" review admin db = Ok (reviewed, db') /\
    days_used VACATION_57 db' = days_used VACATION_57 db + 7.
Proof.
  intros db review. split; [reflexivity|].
  destruct (review_permit (day 40) "p2" review admin db)
    as [[reviewed db']|e] eqn:Hrun; [|vm_compute in Hrun; discriminate Hrun].
  exists reviewed, db'. split; [reflexivity|].
  destruct (review_moves_used_days (day 40) "p2" review admin db
              (permit "p2" VACATION_57 7 PENDING) reviewed db'
              eq_refl Hrun) as [_ [Happroved _]].
  apply Happroved; [discriminate|reflexivity].
Defined.

Lemma approval_days_shown now reviewed_on wanted review reviewer caller users
    db old reviewed db' shown :
  (List.length db <= 1000)%nat ->
  find_one wanted db = Some old ->
  status old <> APPROVED ->
  review_status review = APPROVED ->
  0 <= days_requested old ->
  review_permit reviewed_on wanted review reviewer db = Ok (reviewed, db') ->
  get_teacher_days now (teacher_id old) caller users db = Ok shown ->
  exists shown',
    get_teacher_days now (teacher_id old) caller users db' = Ok shown' /\
    (permit_type old = VACATION_57 ->
     total_vacation shown' = Z.max 0 (total_vacation shown - days_requested old)
     /\ total_economic shown' = total_economic shown) /\
    (permit_type old = ECONOMIC_62 ->
     total_economic shown' = Z.max 0 (total_economic shown - days_requested old)
     /\ total_vacation shown' = total_vacation shown).
Proof.
  intros Hlen Hfind Hold Hnew Hdays Hrun Hshown.
  destruct (review_permit_ok _ _ _ _ _ _ _ Hrun)
    as [_ [old' [Hfind' [Hreviewed Hdb']]]].
  assert (old' = old) by congruence. subst old'.
  set (set := apply_review reviewed_on reviewer review) in *.
  assert (Hlen' : (List.length db' <= 1000)%nat)
    by (rewrite Hdb', update_one_length; exact Hlen).
  assert (Hused : forall kind,
            days_used kind (permits_of (teacher_id old) db') =
            days_used kind (permits_of (teacher_id old) db)
            + (counted kind (set old) - counted kind old)).
  { intros kind. rewrite !permits_of_short by assumption. rewrite Hdb'.
    pose proof (days_used_filter_update_one kind
                  (fun p => String.eqb (teacher_id p) (teacher_id old))
                  wanted set db old (fun _ => eq_refl) Hfind) as H.
    cbv beta in H. rewrite String.eqb_refl in H. exact H. }
  unfold get_teacher_days in *.
  destruct (negb _ && negb _); [discriminate Hshown|].
  destruct (find_user (teacher_id old) users) as [t|]; [|discriminate Hshown].
  revert Hshown. profile_cases t; intros Hshown; returned.
  all: try (eexists; split; [reflexivity|]; simpl; split; intros; lia).
  eexists. split; [reflexivity|].
  cbn [total_vacation total_economic].
  rewrite (Hused VACATION_57), (Hused ECONOMIC_62).
  unfold counted, set. cbn [status permit_type days_requested apply_review].
  rewrite Hnew.
  split; intros Hkind; rewrite Hkind;
    destruct (status old); try congruence;
    cbn [PermitStatus_eqb PermitType_eqb andb]; split; lia.
Qed.

(** X14.  Approving a permit uses up the balance its teacher is shown: in a
    collection of at most 1000 permits, whenever the approval of a permit
    that was not approved and asks for [d >= 0] days took place,
    [get_teacher_days] for the permit's teacher, read at one and the same
    clock reading over the collection before and after the approval, shows
    after it the total of the permit's kind lowered by [d], stopping at 0,
    and the total of the other kind unchanged. *)
Theorem approval_lowers_days_shown now reviewed_on wanted review reviewer
    caller users db old reviewed db' shown :
  (List.length db <= 1000)%nat ->
  find_one wanted db = Some old ->
  status old <> APPROVED ->
  review_status review = APPROVED ->
  0 <= days_requested old ->
  review_permit reviewed_on wanted review reviewer db = Ok (reviewed, db') ->
  get_teacher_days now (teacher_id old) caller users db = Ok shown ->
  exists shown',
    get_teacher_days now (teacher_id old) caller users db' = Ok shown' /\
    (permit_type old = VACATION_57 ->
     total_vacation shown' = Z.max 0 (total_vacation shown - days_requested old)
     /\ total_economic shown' = total_economic shown) /\
    (permit_type old = ECONOMIC_62 ->
     total_economic shown' = Z.max 0 (total_economic shown - days_requested old)
     /\ total_vacation shown' = total_vacation shown).
Proof.
  exact (approval_days_shown now reviewed_on wanted review reviewer caller
           users db old reviewed db' shown).
Qed.

Lemma approval_lowers_days_shown_witness :
  let user := teacher (Some FULL_TIME) (Some (day 0)) in
  let old := permit "p2" VACATION_57 7 PENDING in
  let db := [permit "p1" VACATION_57 5 APPROVED; old] in
  let review :=
    {| review_status := APPROVED; review_rejection_reason := None |} in
  (List.length db <= 1000)%nat /\ find_one "p2" db = Some old /\
  status old <> APPROVED /\ 0 <= days_requested old /\
  exists reviewed db' shown shown',
    review_permit (day 1826) "p2" review admin db = Ok (reviewed, db') /\
    get_teacher_days (day 1827) (teacher_id old) admin [admin; user] db
      = Ok shown /\
    get_teacher_days (day 1827) (teacher_id old) admin [admin; user] db'
      = Ok shown' /\
    total_vacation shown' = Z.max 0 (total_vacation shown - days_requested old).
Proof.
  intros user old db review.
  assert (Hlen : (List.length db <= 1000)%nat) by (vm_compute; repeat constructor).
  assert (Hold : status old <> APPROVED) by discriminate.
  assert (Hdays : 0 <= days_requested old) by (vm_compute; discriminate).
  split; [exact Hlen|]. split; [reflexivity|]. split; [exact Hold|].
  split; [exact Hdays|].
  destruct (review_permit (day 1826) "p2" review admin db)
    as [[reviewed db']|e] eqn:Hrun; [|vm_compute in Hrun; discriminate Hrun].
  destruct (get_teacher_days (day 1827) (teacher_id old) admin [admin; user] db)
    as [shown|e] eqn:Hshown; [|vm_compute in Hshown; discriminate Hshown].
  destruct (approval_lowers_days_shown (day 1827) (day 1826) "p2" review admin
              admin [admin; user] db old reviewed db' shown
              Hlen eq_refl Hold eq_refl Hdays Hrun Hshown)
    as [shown' [Hshown' [Hvacation _]]].
  exists reviewed, db', shown, shown'.
  split; [reflexivity|]. split; [reflexivity|]. split; [exact Hshown'|].
  exact (proj1 (Hvacation eq_refl)).
Defined.

(** X15.  A review never adds or removes a permit and never changes the
    identifier, the teacher, the kind, the dates, the days or the reason of
    any permit; only the status and the review fields move. *)
Theorem review_keeps_requests now wanted review reviewer db reviewed db' :
  review_permit now wanted review reviewer db = Ok (reviewed, db') ->
  let request_of (p : Permit) :=
    (permit_id p, teacher_id p, teacher_name p, permit_type p,
     start_date p, end_date p, days_requested p, reason p, created_at p) in
  map request_of db' = map request_of db /\
  List.length db' = List.length db.
Proof.
  intros Hrun request_of.
  destruct (review_permit_ok _ _ _ _ _ _ _ Hrun) as [_ [old [_ [_ Hdb']]]].
  rewrite Hdb'. split.
  - apply update_one_map. intros p. reflexivity.
  - apply update_one_length.
Qed.

Lemma review_keeps_requests_witness :
  let db := [permit "p1" VACATION_57 5 APPROVED;
             permit "p2" ECONOMIC_62 1 PENDING] in
  let review :=
    {| review_status := REJECTED;
       review_rejection_reason := Some "fechas"%string |} in
  exists reviewed db',
    review_permit (day 40) "p2" review admin db = Ok (reviewed, db') /\
    map days_requested db' = map days_requested db /\
    List.length db' = List.length db.
Proof.
  intros db review.
  destruct (review_permit (day 40) "p2" review admin db)
    as [[reviewed db']|e] eqn:Hrun; [|vm_compute in Hrun; discriminate Hrun].
  exists reviewed, db'. split; [reflexivity|].
  destruct (review_keeps_requests (day 40) "p2" review admin db reviewed db'
              Hrun) as [Hmap Hlen].
  split; [|exact Hlen].
  apply (f_equal (map (fun t => snd (fst (fst t))))) in Hmap.
  rewrite !map_map in Hmap. exact Hmap.
Defined.

(** ** Properties of the reading handlers *)

Lemma firstn_In {A : Type} (n : nat) (l : list A) (x : A) :
  In x (firstn n l) -> In x l.
Proof.
  intros Hin. rewrite <- (firstn_skipn n l). apply in_or_app. left. exact Hin.
Qed.

Lemma permits_of_In (owner : string) (db : collection) (p : Permit) :
  In p (permits_of owner db) -> In p db /\ teacher_id p = owner.
Proof.
  unfold permits_of. intros Hin. apply firstn_In in Hin.
  apply filter_In in Hin. destruct Hin as [Hin Hmine].
  split; [exact Hin|]. apply String.eqb_eq. exact Hmine.
Qed.

(** X16.  [get_permits] returns at most 1000 permits, all of them stored;
    to a caller who is not an administrator it returns only permits filed
    under the caller's own identifier, and all of those when the collection
    holds at most 1000 permits; to an administrator it returns the first
    1000 stored permits, whoever filed them. *)
Theorem get_permits_visibility user db :
  (List.length (get_permits user db) <= 1000)%nat /\
  (forall p, In p (get_permits user db) -> In p db) /\
  (role user <> ADMIN ->
   forall p, In p (get_permits user db) -> teacher_id p = user_id user) /\
  (role user <> ADMIN -> (List.length db <= 1000)%nat ->
   forall p, In p db -> teacher_id p = user_id user ->
             In p (get_permits user db)) /\
  (role user = ADMIN -> get_permits user db = firstn 1000 db).
Proof.
  unfold get_permits. split; [|split; [|split; [|split]]].
  - destruct (UserRole_eqb (role user) ADMIN); unfold permits_of;
      apply firstn_le_length.
  - intros p. destruct (UserRole_eqb (role user) ADMIN).
    + apply firstn_In.
    + intros Hin. apply (permits_of_In _ _ _ Hin).
  - intros Hrole p. destruct (role user); [congruence|]. simpl.
    intros Hin. apply (permits_of_In _ _ _ Hin).
  - intros Hrole Hlen p Hin Hmine. destruct (role user); [congruence|]. simpl.
    rewrite permits_of_short by exact Hlen.
    apply filter_In. split; [exact Hin|]. apply String.eqb_eq. exact Hmine.
  - intros ->. reflexivity.
Qed.

Lemma get_permits_visibility_witness :
  let user := teacher (Some FULL_TIME) (Some (day 0)) in
  let db := [permit "p1" VACATION_57 5 APPROVED;
             colleague_permit "q1" ECONOMIC_62 1 PENDING] in
  role user <> ADMIN /\
  forall p, In p (get_permits user db) -> teacher_id p = user_id user.
Proof.
  intros user db.
  assert (Hrole : role user <> ADMIN) by discriminate.
  split; [exact Hrole|].
  destruct (get_permits_visibility user db) as [_ [_ [Hown _]]].
  exact (Hown Hrole).
Defined.

(** X17.  [get_teacher_days] answers 403 to a caller who is neither an
    administrator nor the teacher asked about, whether or not that teacher
    exists; every other caller gets the same answer, which is 404 exactly
    when no user has the identifier, and otherwise whatever
    [calculate_days_available] gives for that user and the user's first 1000
    permits: the snapshot, or the [TypeError] of a hire date without an
    offset. *)
Theorem get_teacher_days_access now wanted caller users db :
  let allowed (u : User) := role u = ADMIN \/ user_id u = wanted in
  (~ allowed caller ->
   get_teacher_days now wanted caller users db = Raise Forbidden) /\
  (allowed caller ->
   forall other, allowed other ->
     get_teacher_days now wanted caller users db =
     get_teacher_days now wanted other users db) /\
  (allowed caller ->
   (get_teacher_days now wanted caller users db = Raise NotFound <->
    find_user wanted users = None) /\
   (forall t, find_user wanted users = Some t ->
      get_teacher_days now wanted caller users db =
      calculate_days_available now t (permits_of wanted db)) /\
   (get_teacher_days now wanted caller users db = Raise TypeError <->
    exists t, find_user wanted users = Some t /\ offset_missing t)).
Proof.
  intros allowed.
  assert (Hguard : forall u,
    negb (UserRole_eqb (role u) ADMIN) && negb (String.eqb (user_id u) wanted)
    = false <-> allowed u).
  { intros u. unfold allowed.
    rewrite andb_false_iff, !negb_false_iff, String.eqb_eq.
    destruct (role u); simpl; split; intros [H|H]; auto; discriminate. }
  split; [|split].
  - intros Hno. unfold get_teacher_days.
    destruct (negb _ && negb _) eqn:E; [reflexivity|].
    apply Hguard in E. contradiction.
  - intros Hcaller other Hother. unfold get_teacher_days.
    rewrite (proj2 (Hguard caller) Hcaller), (proj2 (Hguard other) Hother).
    reflexivity.
  - intros Hcaller. unfold get_teacher_days.
    rewrite (proj2 (Hguard caller) Hcaller).
    destruct (find_user wanted users) as [t|].
    + split; [|split].
      * split; [|discriminate]. intros Hrun.
        apply calculate_days_available_raises in Hrun.
        destruct Hrun as [Hno _]. discriminate Hno.
      * intros t' [= <-]. reflexivity.
      * rewrite calculate_days_available_raises. split.
        -- intros [_ Hmissing]. exists t. split; [reflexivity|exact Hmissing].
        -- intros [t' [[= <-] Hmissing]]. split; [reflexivity|exact Hmissing].
    + split; [|split].
      * split; reflexivity.
      * discriminate.
      * split; [discriminate|]. intros [t [H _]]. discriminate H.
Qed.

Lemma get_teacher_days_access_witness :
  let caller := teacher (Some FULL_TIME) (Some (day 0)) in
  ~ (role caller = ADMIN \/ user_id caller = "t2"%string) /\
  get_teacher_days (day 50) "t2" caller [admin] [] = Raise Forbidden.
Proof.
  intros caller.
  assert (Hno : ~ (role caller = ADMIN \/ user_id caller = "t2"%string))
    by (intros [H|H]; discriminate H).
  split; [exact Hno|].
  exact (proj1 (get_teacher_days_access (day 50) "t2" caller [admin] []) Hno).
Defined.

Lemma get_teacher_days_own now user users db :
  find_user (user_id user) users = Some user ->
  get_teacher_days now (user_id user) user users db =
  calculate_days_available now user (permits_of (user_id user) db).
Proof.
  intros Hstored. unfold get_teacher_days.
  rewrite String.eqb_refl, andb_false_r, Hstored. reflexivity.
Qed.

(** X18.  What a teacher is shown is what the teacher's request is held
    against: for a teacher stored under the teacher's own identifier to whom
    [get_teacher_days] returns a snapshot, a request filed at the same clock
    reading is stored exactly when the requested days do not exceed the
    total shown for the requested kind, and a request within the total shown
    is stored at any later clock reading as well. *)
Theorem days_shown_bound_requests now later fresh_id data user users db shown :
  role user = TEACHER ->
  find_user (user_id user) users = Some user ->
  get_teacher_days now (user_id user) user users db = Ok shown ->
  let available :=
    match new_permit_type data with
    | VACATION_57 => total_vacation shown
    | ECONOMIC_62 => total_economic shown
    end in
  ((exists created db',
      create_permit now fresh_id data user db = Ok (created, db')) <->
   new_days_requested data <= available) /\
  (now <= later -> new_days_requested data <= available ->
   exists created db',
     create_permit later fresh_id data user db = Ok (created, db')).
Proof.
  intros Hrole Hstored Hshown available.
  rewrite (get_teacher_days_own now user users db Hstored) in Hshown.
  split.
  - rewrite create_permit_ok_iff, validate_request_ok. split.
    + intros [_ [s [Hs Hle]]].
      assert (s = shown) by congruence. subst s. exact Hle.
    + intros Hle. split; [exact Hrole|]. exists shown. split; assumption.
  - intros Hlater Hle.
    apply create_permit_ok_iff. split; [exact Hrole|].
    apply validate_request_ok.
    destruct (calculate_days_available_again now user
                (permits_of (user_id user) db) shown later
                (permits_of (user_id user) db) Hshown) as [s' Hs'].
    exists s'. split; [exact Hs'|].
    pose proof (snapshot_mono_in_time now later user
                  (permits_of (user_id user) db) shown s' Hlater Hshown Hs')
      as Hmono.
    unfold available in Hle. destruct (new_permit_type data); lia.
Qed.

Lemma days_shown_bound_requests_witness :
  let user := teacher (Some FULL_TIME) (Some (day 0)) in
  let db := [permit "p1" VACATION_57 8 APPROVED] in
  role user = TEACHER /\ find_user (user_id user) [admin; user] = Some user /\
  day 1000 <= day 1900 /\
  exists shown,
    get_teacher_days (day 1000) (user_id user) user [admin; user] db = Ok shown
    /\ total_vacation shown = 12
    /\ exists created db',
         create_permit (day 1900) "p2" (request VACATION_57 12) user db =
         Ok (created, db').
Proof.
  intros user db.
  assert (Hlater : day 1000 <= day 1900) by (vm_compute; discriminate).
  split; [reflexivity|]. split; [reflexivity|]. split; [exact Hlater|].
  destruct (get_teacher_days (day 1000) (user_id user) user [admin; user] db)
    as [shown|e] eqn:Hshown; [|vm_compute in Hshown; discriminate Hshown].
  assert (Htotal : total_vacation shown = 12).
  { vm_compute in Hshown. injection Hshown as <-. reflexivity. }
  exists shown. split; [reflexivity|]. split; [exact Htotal|].
  destruct (days_shown_bound_requests (day 1000) (day 1900) "p2"
              (request VACATION_57 12) user [admin; user] db shown
              eq_refl eq_refl Hshown) as [_ Hafter].
  apply (Hafter Hlater). cbn [new_permit_type request new_days_requested].
  rewrite Htotal. vm_compute; discriminate.
Defined.

(** ** Notifications *)

Lemma map_combine_seq {A B C : Type} (make : nat * A -> B) (field : B -> C)
    (origin : A -> C) (l : list A) (start : nat) :
  (forall k a, field (make (k, a)) = origin a) ->
  map field (map make (combine (seq start (List.length l)) l)) = map origin l.
Proof.
  intros Hfield. revert start.
  induction l as [|a l IH]; intros start; simpl; [reflexivity|].
  rewrite Hfield, IH. reflexivity.
Qed.

Lemma notify_admins_recipients now uuid4 user created all_users :
  map n_user_id (notify_admins now uuid4 user created all_users) =
  map user_id
    (firstn 100 (filter (fun u => UserRole_eqb (role u) ADMIN) all_users)).
Proof.
  unfold notify_admins. apply map_combine_seq. intros k a. reflexivity.
Qed.

Lemma notify_admins_unread now uuid4 user created all_users :
  Forall (fun n => n_read n = false
                   /\ n_title n = "Nueva solicitud de permiso"%string)
    (notify_admins now uuid4 user created all_users).
Proof.
  unfold notify_admins. apply Forall_forall. intros n Hin.
  apply in_map_iff in Hin. destruct Hin as [[k a] [<- _]]. split; reflexivity.
Qed.

Lemma mark_first_map {A : Type} (field : Notification -> A) wanted owner ns :
  (forall n, field (set_read n) = field n) ->
  map field (mark_first wanted owner ns) = map field ns.
Proof.
  intros Hfield. induction ns as [|n rest IH]; simpl; [reflexivity|].
  destruct (is_notification wanted owner n); simpl;
    [rewrite Hfield|rewrite IH]; reflexivity.
Qed.

Lemma mark_first_others wanted owner (keep : Notification -> bool) ns :
  (forall n, is_notification wanted owner n = true -> keep n = false) ->
  (forall n, keep (set_read n) = keep n) ->
  filter keep (mark_first wanted owner ns) = filter keep ns.
Proof.
  intros Hout Hkeep. induction ns as [|n rest IH]; simpl; [reflexivity|].
  destruct (is_notification wanted owner n) eqn:Hn; simpl.
  - rewrite Hkeep, (Hout n Hn). reflexivity.
  - rewrite IH. reflexivity.
Qed.

Lemma mark_first_found wanted owner ns :
  existsb (is_notification wanted owner) ns = true ->
  exists n,
    find (is_notification wanted owner) ns = Some n /\
    find (is_notification wanted owner) (mark_first wanted owner ns)
    = Some (set_read n).
Proof.
  induction ns as [|n rest IH]; simpl; [discriminate|].
  destruct (is_notification wanted owner n) eqn:Hn; simpl.
  - intros _. exists n. split; [reflexivity|].
    assert (Hread : is_notification wanted owner (set_read n) = true)
      by exact Hn.
    rewrite Hread. reflexivity.
  - rewrite Hn. exact IH.
Qed.

Lemma mark_first_again wanted owner ns :
  mark_first wanted owner (mark_first wanted owner ns) =
  mark_first wanted owner ns.
Proof.
  induction ns as [|n rest IH]; simpl; [reflexivity|].
  destruct (is_notification wanted owner n) eqn:Hn; simpl.
  - assert (Hread : is_notification wanted owner (set_read n) = true)
      by exact Hn.
    rewrite Hread. reflexivity.
  - rewrite Hn, IH. reflexivity.
Qed.

Lemma existsb_mark_first wanted owner ns :
  existsb (is_notification wanted owner) (mark_first wanted owner ns) =
  existsb (is_notification wanted owner) ns.
Proof.
  induction ns as [|n rest IH]; simpl; [reflexivity|].
  destruct (is_notification wanted owner n) eqn:Hn; simpl.
  - assert (Hread : is_notification wanted owner (set_read n) = true)
      by exact Hn.
    rewrite Hread. reflexivity.
  - rewrite Hn, IH. reflexivity.
Qed.

Lemma mark_notification_read_ok wanted user ns :
  existsb (is_notification wanted (user_id user)) ns = true ->
  mark_notification_read wanted user ns =
  Ok (mark_first wanted (user_id user) ns).
Proof.
  intros Hfound. unfold mark_notification_read, matched_count.
  rewrite Hfound. reflexivity.
Qed.

Lemma mark_notification_read_missing wanted user ns :
  existsb (is_notification wanted (user_id user)) ns = false ->
  mark_notification_read wanted user ns = Raise NotFound.
Proof.
  intros Hfound. unfold mark_notification_read, matched_count.
  rewrite Hfound. reflexivity.
Qed.

Lemma is_notification_iff wanted owner n :
  is_notification wanted owner n = true <->
  n_id n = wanted /\ n_user_id n = owner.
Proof.
  unfold is_notification. rewrite andb_true_iff, !String.eqb_eq. reflexivity.
Qed.

(** X19.  A stored request notifies the administrators and nobody else:
    [create_permit] leaves the users as they are, appends the new pending
    permit, and appends one unread notification for each of the first 100
    administrators, in their order, after the notifications already
    there. *)
Theorem new_request_notifies_admins now fresh_id uuid4 data user db
    created db' :
  create_permit_notify now fresh_id uuid4 data user db = Ok (created, db') ->
  users db' = users db /\
  permits db' = permits db ++ [created] /\
  status created = PENDING /\
  exists added,
    notifications db' = notifications db ++ added /\
    map n_user_id added =
      map user_id
        (firstn 100
           (filter (fun u => UserRole_eqb (role u) ADMIN) (users db))) /\
    Forall (fun n => n_read n = false
                     /\ n_title n = "Nueva solicitud de permiso"%string)
      added.
Proof.
  unfold create_permit_notify. intros Hrun.
  destruct (create_permit now fresh_id data user (permits db))
    as [[permit stored]|e] eqn:Hcreate; simpl in Hrun; [|discriminate Hrun].
  injection Hrun as <- <-. cbn [users permits notifications].
  assert (Hteacher : role user = TEACHER).
  { apply (create_permit_ok_iff now fresh_id data user (permits db)).
    eexists. eexists. exact Hcreate. }
  rewrite (create_permit_teacher _ _ _ _ _ Hteacher) in Hcreate.
  destruct (validate_request _ _ _ _) as [[]|e]; simpl in Hcreate;
    [|discriminate Hcreate].
  injection Hcreate as <- <-.
  split; [reflexivity|]. split; [reflexivity|]. split; [reflexivity|].
  eexists. split; [reflexivity|]. split.
  - apply notify_admins_recipients.
  - apply notify_admins_unread.
Qed.

Lemma new_request_notifies_admins_witness :
  let user := teacher (Some FULL_TIME) (Some (day 0)) in
  let db := {| users := [admin; user]; permits := [];
               notifications := [note "n0" "t1" true] |} in
  exists created db',
    create_permit_notify (day 1000) "p1" (fun _ => "n1"%string)
      (request ECONOMIC_62 2) user db = Ok (created, db') /\
    map n_user_id (notifications db') = ["t1"; "a1"]%string.
Proof.
  intros user db.
  destruct (create_permit_notify (day 1000) "p1" (fun _ => "n1"%string)
              (request ECONOMIC_62 2) user db)
    as [[created db']|e] eqn:Hrun; [|vm_compute in Hrun; discriminate Hrun].
  exists created, db'. split; [reflexivity|].
  destruct (new_request_notifies_admins (day 1000) "p1" (fun _ => "n1"%string)
              (request ECONOMIC_62 2) user db created db' Hrun)
    as [_ [_ [_ [added [Hall [Hto _]]]]]].
  rewrite Hall, map_app, Hto. reflexivity.
Defined.

(** X20.  A review notifies the teacher of the reviewed permit, not the
    reviewer: [review_permit] appends exactly one unread notification,
    addressed to the permit's teacher, titled "Solicitud aprobada" when the
    review carries the status approved and "Solicitud rechazada" for any
    other status, pending included. *)
Theorem review_notifies_teacher now wanted fresh_id review reviewer db
    old reviewed db' :
  find_one wanted (permits db) = Some old ->
  review_permit_notify now wanted fresh_id review reviewer db
  = Ok (reviewed, db') ->
  users db' = users db /\
  exists n,
    notifications db' = notifications db ++ [n] /\
    n_id n = fresh_id /\
    n_user_id n = teacher_id old /\
    n_read n = false /\
    (review_status review = APPROVED ->
     n_title n = "Solicitud aprobada"%string) /\
    (review_status review <> APPROVED ->
     n_title n = "Solicitud rechazada"%string).
Proof.
  unfold review_permit_notify. intros Hfind Hrun.
  destruct (review_permit now wanted review reviewer (permits db))
    as [[permit stored]|e] eqn:Hreview; simpl in Hrun; [|discriminate Hrun].
  injection Hrun as <- <-. cbn [users permits notifications].
  destruct (review_permit_ok _ _ _ _ _ _ _ Hreview)
    as [_ [old' [Hfind' [Hpermit _]]]].
  assert (old' = old) by congruence. subst old'.
  split; [reflexivity|]. eexists. split; [reflexivity|].
  unfold notify_teacher. cbn [n_id n_user_id n_read n_title].
  split; [reflexivity|]. split; [rewrite Hpermit; reflexivity|].
  split; [reflexivity|]. split.
  - intros ->. reflexivity.
  - intros Hno. destruct (review_status review); try reflexivity. congruence.
Qed.

Lemma review_notifies_teacher_witness :
  let db := {| users := [admin]; notifications := [];
               permits := [permit "p1" VACATION_57 5 APPROVED] |} in
  let review :=
    {| review_status := PENDING; review_rejection_reason := None |} in
  find_one "p1" (permits db) = Some (permit "p1" VACATION_57 5 APPROVED) /\
  review_status review <> APPROVED /\
  exists reviewed db',
    review_permit_notify (day 40) "p1" "n1" review admin db
    = Ok (reviewed, db') /\
    map n_title (notifications db') = ["Solicitud rechazada"%string] /\
    map n_user_id (notifications db') = ["t1"%string].
Proof.
  intros db review.
  assert (Hno : review_status review <> APPROVED) by discriminate.
  split; [reflexivity|]. split; [exact Hno|].
  destruct (review_permit_notify (day 40) "p1" "n1" review admin db)
    as [[reviewed db']|e] eqn:Hrun; [|vm_compute in Hrun; discriminate Hrun].
  exists reviewed, db'. split; [reflexivity|].
  destruct (review_notifies_teacher (day 40) "p1" "n1" review admin db
              (permit "p1" VACATION_57 5 APPROVED) reviewed db' eq_refl Hrun)
    as [_ [n [Hall [_ [Hto [_ [_ Htitle]]]]]]].
  rewrite Hall. cbn [notifications db app map].
  rewrite (Htitle Hno), Hto. split; reflexivity.
Defined.

(** X21.  [mark_notification_read] succeeds exactly when a notification
    with the given identifier is addressed to the caller, and answers 404
    otherwise: the identifier of somebody else's notification is as good as
    an unknown one. *)
Theorem mark_notification_read_criterion wanted user ns :
  ((exists ns', mark_notification_read wanted user ns = Ok ns') <->
   exists n, In n ns /\ n_id n = wanted /\ n_user_id n = user_id user) /\
  (mark_notification_read wanted user ns = Raise NotFound <->
   forall n, In n ns -> n_id n = wanted -> n_user_id n <> user_id user).
Proof.
  destruct (existsb (is_notification wanted (user_id user)) ns) eqn:Hfound.
  - rewrite (mark_notification_read_ok _ _ _ Hfound).
    apply existsb_exists in Hfound. destruct Hfound as [n [Hin Hn]].
    apply is_notification_iff in Hn. destruct Hn as [Hid Hto].
    split; split.
    + intros _. exists n. auto.
    + intros _. eexists. reflexivity.
    + discriminate.
    + intros Hnone. exfalso. exact (Hnone n Hin Hid Hto).
  - rewrite (mark_notification_read_missing _ _ _ Hfound).
    assert (Hnone : forall n, In n ns -> n_id n = wanted ->
                              n_user_id n <> user_id user).
    { intros n Hin Hid Hto.
      assert (existsb (is_notification wanted (user_id user)) ns = true)
        by (apply existsb_exists; exists n; split; [exact Hin|];
            apply is_notification_iff; auto).
      congruence. }
    split; split.
    + intros [ns' H]. discriminate H.
    + intros [n [Hin [Hid Hto]]]. exfalso. exact (Hnone n Hin Hid Hto).
    + intros _. exact Hnone.
    + reflexivity.
Qed.

(** X22.  Marking a notification read changes nothing but read flags of the
    caller: every notification keeps its identifier, addressee, title,
    message and date, the notifications of other users are left exactly as
    they were, and the first notification with that identifier addressed
    to the caller is read afterwards. *)
Theorem mark_notification_read_effect wanted user ns ns' :
  mark_notification_read wanted user ns = Ok ns' ->
  let content (n : Notification) :=
    (n_id n, n_user_id n, n_title n, n_message n, n_created_at n) in
  map content ns' = map content ns /\
  filter (fun n => negb (String.eqb (n_user_id n) (user_id user))) ns' =
  filter (fun n => negb (String.eqb (n_user_id n) (user_id user))) ns /\
  exists n,
    find (is_notification wanted (user_id user)) ns' = Some n /\
    n_read n = true.
Proof.
  intros Hrun content.
  destruct (existsb (is_notification wanted (user_id user)) ns) eqn:Hfound.
  - rewrite (mark_notification_read_ok _ _ _ Hfound) in Hrun.
    injection Hrun as <-. split; [|split].
    + apply mark_first_map. intros n. reflexivity.
    + apply mark_first_others.
      * intros n Hn. apply is_notification_iff in Hn. destruct Hn as [_ Hto].
        apply String.eqb_eq in Hto. rewrite Hto. reflexivity.
      * intros n. reflexivity.
    + destruct (mark_first_found _ _ _ Hfound) as [n [_ Hn]].
      exists (set_read n). split; [exact Hn|reflexivity].
  - rewrite (mark_notification_read_missing _ _ _ Hfound) in Hrun.
    discriminate Hrun.
Qed.

Lemma mark_notification_read_effect_witness :
  let user := teacher None None in
  let ns := [note "n1" "a1" false; note "n1" "t1" false;
             note "n2" "t1" false] in
  exists ns',
    mark_notification_read "n1" user ns = Ok ns' /\
    map n_read ns' = [false; true; false] /\
    filter (fun n => negb (String.eqb (n_user_id n) (user_id user))) ns' =
    filter (fun n => negb (String.eqb (n_user_id n) (user_id user))) ns.
Proof.
  intros user ns.
  destruct (mark_notification_read "n1" user ns) as [ns'|e] eqn:Hrun;
    [|vm_compute in Hrun; discriminate Hrun].
  exists ns'. split; [reflexivity|].
  destruct (mark_notification_read_effect "n1" user ns ns' Hrun)
    as [_ [Hothers _]].
  split; [|exact Hothers].
  vm_compute in Hrun. injection Hrun as <-. reflexivity.
Defined.

(** X23.  Marking a notification read a second time succeeds again and
    changes nothing. *)
Theorem mark_notification_read_twice wanted user ns ns' :
  mark_notification_read wanted user ns = Ok ns' ->
  mark_notification_read wanted user ns' = Ok ns'.
Proof.
  intros Hrun.
  destruct (existsb (is_notification wanted (user_id user)) ns) eqn:Hfound.
  - rewrite (mark_notification_read_ok _ _ _ Hfound) in Hrun.
    injection Hrun as <-.
    rewrite mark_notification_read_ok
      by (rewrite existsb_mark_first; exact Hfound).
    rewrite mark_first_again. reflexivity.
  - rewrite (mark_notification_read_missing _ _ _ Hfound) in Hrun.
    discriminate Hrun.
Qed.

Lemma mark_notification_read_twice_witness :
  let user := teacher None None in
  let ns := [note "n1" "t1" false; note "n1" "t1" false] in
  exists ns',
    mark_notification_read "n1" user ns = Ok ns' /\
    mark_notification_read "n1" user ns' = Ok ns' /\
    map n_read ns' = [true; false].
Proof.
  intros user ns.
  destruct (mark_notification_read "n1" user ns) as [ns'|e] eqn:Hrun;
    [|vm_compute in Hrun; discriminate Hrun].
  exists ns'. split; [reflexivity|].
  split; [exact (mark_notification_read_twice "n1" user ns ns' Hrun)|].
  vm_compute in Hrun. injection Hrun as <-. reflexivity.
Defined.

(** X24.  The teacher of a reviewed permit can mark the notification of
    the review read: after a successful review, [mark_notification_read]
    with the identifier of the new notification succeeds for any caller
    whose identifier is the permit's teacher. *)
Theorem teacher_can_acknowledge_review now wanted fresh_id review reviewer db
    old reviewed db' owner :
  find_one wanted (permits db) = Some old ->
  review_permit_notify now wanted fresh_id review reviewer db
  = Ok (reviewed, db') ->
  user_id owner = teacher_id old ->
  exists ns',
    mark_notification_read fresh_id owner (notifications db') = Ok ns'.
Proof.
  unfold review_permit_notify. intros Hfind Hrun Howner.
  destruct (review_permit now wanted review reviewer (permits db))
    as [[permit stored]|e] eqn:Hreview; simpl in Hrun; [|discriminate Hrun].
  injection Hrun as <- <-. cbn [notifications].
  destruct (review_permit_ok _ _ _ _ _ _ _ Hreview)
    as [_ [old' [Hfind' [Hpermit _]]]].
  assert (old' = old) by congruence. subst old'.
  eexists. apply mark_notification_read_ok.
  rewrite existsb_app. apply orb_true_iff. right. simpl.
  rewrite orb_false_r. apply is_notification_iff.
  unfold notify_teacher. cbn [n_id n_user_id].
  split; [reflexivity|]. rewrite Hpermit, Howner. reflexivity.
Qed.

Lemma teacher_can_acknowledge_review_witness :
  let owner := teacher (Some FULL_TIME) (Some (day 0)) in
  let old := permit "p1" VACATION_57 5 PENDING in
  let db := {| users := [admin; owner]; notifications := [];
               permits := [old] |} in
  let review :=
    {| review_status := APPROVED; review_rejection_reason := None |} in
  find_one "p1" (permits db) = Some old /\
  user_id owner = teacher_id old /\
  exists reviewed db' ns',
    review_permit_notify (day 40) "p1" "n1" review admin db
    = Ok (reviewed, db') /\
    mark_notification_read "n1" owner (notifications db') = Ok ns'.
Proof.
  intros owner old db review. split; [reflexivity|]. split; [reflexivity|].
  destruct (review_permit_notify (day 40) "p1" "n1" review admin db)
    as [[reviewed db']|e] eqn:Hrun; [|vm_compute in Hrun; discriminate Hrun].
  destruct (teacher_can_acknowledge_review (day 40) "p1" "n1" review admin db
              old reviewed db' owner eq_refl Hrun eq_refl) as [ns' Hmark].
  exists reviewed, db', ns'. split; [reflexivity|exact Hmark].
Defined.

(** ** From the request to the decision *)

Lemma find_one_app wanted (db : collection) (p : Permit) :
  find_one wanted (db ++ [p]) =
  match find_one wanted db with
  | Some older => Some older
  | None => if has_id wanted p then Some p else None
  end.
Proof.
  unfold find_one. induction db as [|q rest IH]; simpl; [reflexivity|].
  destruct (has_id wanted q); [reflexivity|exact IH].
Qed.

Lemma create_permit_ok now fresh_id data user db created db' :
  create_permit now fresh_id data user db = Ok (created, db') ->
  role user = TEACHER /\
  validate_request now user (permits_of (user_id user) db) data = Ok tt /\
  db' = db ++ [created] /\
  permit_id created = fresh_id /\
  teacher_id created = user_id user /\
  permit_type created = new_permit_type data /\
  days_requested created = new_days_requested data /\
  status created = PENDING.
Proof.
  intros Hrun.
  assert (Hok : exists c d, create_permit now fresh_id data user db = Ok (c, d))
    by (eexists; eexists; exact Hrun).
  apply create_permit_ok_iff in Hok. destruct Hok as [Hrole Hvalid].
  rewrite (create_permit_teacher now fresh_id data user db Hrole), Hvalid in Hrun.
  simpl in Hrun. injection Hrun as <- <-.
  repeat (split; [reflexivity || assumption|]). reflexivity.
Qed.

(** X25.  A successful review records who reviewed and when, and takes a
    rejection reason only when the review carries a non-empty one, whatever
    the status it sets: without one, the reason the permit already had
    stays. *)
Theorem review_records_reviewer now wanted review reviewer db old reviewed db' :
  find_one wanted db = Some old ->
  review_permit now wanted review reviewer db = Ok (reviewed, db') ->
  reviewed_by reviewed = Some (user_name reviewer) /\
  reviewed_at reviewed = Some (aware now) /\
  find_one wanted db' = Some reviewed /\
  (forall text, review_rejection_reason review = Some text ->
                text <> ""%string ->
                rejection_reason reviewed = Some text) /\
  (review_rejection_reason review = None
   \/ review_rejection_reason review = Some ""%string ->
   rejection_reason reviewed = rejection_reason old).
Proof.
  intros Hfind Hrun.
  destruct (review_permit_ok _ _ _ _ _ _ _ Hrun)
    as [_ [old' [Hfind' [Hreviewed Hdb']]]].
  assert (old' = old) by congruence. subst old'.
  rewrite Hreviewed, Hdb'. cbn [reviewed_by reviewed_at rejection_reason
                                apply_review].
  split; [reflexivity|]. split; [reflexivity|]. split; [|split].
  - apply find_one_update_one; [apply apply_review_id|exact Hfind].
  - intros text -> Htext. apply String.eqb_neq in Htext. rewrite Htext.
    reflexivity.
  - intros [->| ->]; reflexivity.
Qed.

Lemma review_records_reviewer_witness :
  let old := permit "p1" VACATION_57 5 PENDING in
  let review :=
    {| review_status := APPROVED;
       review_rejection_reason := Some "sin cupo"%string |} in
  find_one "p1" [old] = Some old /\
  exists reviewed db',
    review_permit (day 40) "p1" review admin [old] = Ok (reviewed, db') /\
    status reviewed = APPROVED /\
    rejection_reason reviewed = Some "sin cupo"%string /\
    reviewed_by reviewed = Some "Luz"%string.
Proof.
  intros old review. split; [reflexivity|].
  destruct (review_permit (day 40) "p1" review admin [old])
    as [[reviewed db']|e] eqn:Hrun; [|vm_compute in Hrun; discriminate Hrun].
  exists reviewed, db'. split; [reflexivity|].
  destruct (review_records_reviewer (day 40) "p1" review admin [old] old
              reviewed db' eq_refl Hrun) as [Hby [_ [_ [Hreason _]]]].
  split; [|split; [|exact Hby]].
  - vm_compute in Hrun. injection Hrun as <- _. reflexivity.
  - apply Hreason; [reflexivity|discriminate].
Defined.

(** X26.  A stored request can be looked up: the permit [create_permit]
    returns carries the fresh identifier, the caller as teacher and the
    requested kind and days; when no stored permit had that identifier the
    lookup by it finds the new permit, and the lookup by any other
    identifier finds what it found before. *)
Theorem created_permit_can_be_found now fresh_id data user db created db' :
  create_permit now fresh_id data user db = Ok (created, db') ->
  permit_id created = fresh_id /\
  teacher_id created = user_id user /\
  permit_type created = new_permit_type data /\
  days_requested created = new_days_requested data /\
  (find_one fresh_id db = None -> find_one fresh_id db' = Some created) /\
  (forall other, other <> fresh_id -> find_one other db' = find_one other db).
Proof.
  intros Hrun.
  destruct (create_permit_ok _ _ _ _ _ _ _ Hrun)
    as [_ [_ [Hdb' [Hid [Hteacher [Hkind [Hdays _]]]]]]].
  repeat (split; [assumption|]). rewrite Hdb'. split.
  - intros Hfresh. rewrite find_one_app, Hfresh.
    unfold has_id. rewrite Hid, String.eqb_refl. reflexivity.
  - intros other Hother. rewrite find_one_app.
    destruct (find_one other db); [reflexivity|].
    unfold has_id. rewrite Hid.
    assert (Hneq : String.eqb fresh_id other = false)
      by (apply String.eqb_neq; congruence).
    rewrite Hneq. reflexivity.
Qed.

Lemma created_permit_can_be_found_witness :
  let user := teacher (Some FULL_TIME) (Some (day 0)) in
  let db := [permit "p1" VACATION_57 5 APPROVED] in
  find_one "p2" db = None /\
  exists created db',
    create_permit (day 1000) "p2" (request ECONOMIC_62 3) user db
    = Ok (created, db') /\
    find_one "p2" db' = Some created.
Proof.
  intros user db. split; [reflexivity|].
  destruct (create_permit (day 1000) "p2" (request ECONOMIC_62 3) user db)
    as [[created db']|e] eqn:Hrun; [|vm_compute in Hrun; discriminate Hrun].
  exists created, db'. split; [reflexivity|].
  destruct (created_permit_can_be_found (day 1000) "p2" (request ECONOMIC_62 3)
              user db created db' Hrun) as [_ [_ [_ [_ [Hfound _]]]]].
  exact (Hfound eq_refl).
Defined.

(** X27.  From the request to the decision: when a teacher's request for
    [d >= 0] days is stored under a fresh identifier in a collection of fewer
    than 1000 permits and an administrator, at whatever time, approves it,
    then at any one clock reading not earlier than the request
    [get_teacher_days] shows the teacher, over the collection after the
    approval, a total of the requested kind exactly [d] lower than over the
    collection before the request, and the same total of the other kind. *)
Theorem approved_request_lowers_balance requested_on reviewed_on now fresh_id
    data review user reviewer users db created db1 reviewed db2 :
  create_permit requested_on fresh_id data user db = Ok (created, db1) ->
  find_one fresh_id db = None ->
  (List.length db < 1000)%nat ->
  0 <= new_days_requested data ->
  review_status review = APPROVED ->
  review_permit reviewed_on fresh_id review reviewer db1 = Ok (reviewed, db2) ->
  find_user (user_id user) users = Some user ->
  requested_on <= now ->
  exists shown shown',
    get_teacher_days now (user_id user) user users db = Ok shown /\
    get_teacher_days now (user_id user) user users db2 = Ok shown' /\
    (new_permit_type data = VACATION_57 ->
     total_vacation shown' = total_vacation shown - new_days_requested data /\
     total_economic shown' = total_economic shown) /\
    (new_permit_type data = ECONOMIC_62 ->
     total_economic shown' = total_economic shown - new_days_requested data /\
     total_vacation shown' = total_vacation shown).
Proof.
  intros Hcreate Hfresh Hlen Hdays Happrove Hreview Hstored Hlater.
  destruct (create_permit_ok _ _ _ _ _ _ _ Hcreate)
    as [_ [Hvalid [Hdb1 [Hid [Hteacher [Hkind [Hrequested Hpending]]]]]]].
  apply validate_request_ok in Hvalid. destruct Hvalid as [s0 [Hs0 Hle0]].
  destruct (calculate_days_available_again requested_on user
              (permits_of (user_id user) db) s0 now
              (permits_of (user_id user) db) Hs0) as [shown Hshown].
  pose proof (snapshot_mono_in_time requested_on now user
                (permits_of (user_id user) db) s0 shown Hlater Hs0 Hshown)
    as Hmono.
  assert (Hfound : find_one fresh_id db1 = Some created).
  { rewrite Hdb1, find_one_app, Hfresh. unfold has_id.
    rewrite Hid, String.eqb_refl. reflexivity. }
  assert (Hlen1 : (List.length db1 <= 1000)%nat).
  { rewrite Hdb1, length_app. simpl. lia. }
  assert (Hnot : status created <> APPROVED) by (rewrite Hpending; discriminate).
  assert (Hsame :
    calculate_days_available now user (permits_of (user_id user) db1) =
    Ok shown).
  { rewrite <- Hshown, Hdb1. apply calculate_days_available_used;
      apply days_used_permits_of_append; exact Hnot. }
  destruct (approval_days_shown now reviewed_on fresh_id review reviewer user
              users db1 created reviewed db2 shown
              Hlen1 Hfound Hnot Happrove
              ltac:(rewrite Hrequested; exact Hdays) Hreview
              ltac:(rewrite Hteacher, get_teacher_days_own by exact Hstored;
                    exact Hsame))
    as [shown' [Hshown' [Hvacation Heconomic]]].
  rewrite Hteacher in Hshown'. rewrite Hkind, Hrequested in *.
  exists shown, shown'.
  split; [rewrite get_teacher_days_own by exact Hstored; exact Hshown|].
  split; [exact Hshown'|].
  split; intros Hk; rewrite Hk in *.
  - destruct (Hvacation eq_refl) as [Ht He]. split; [lia|exact He].
  - destruct (Heconomic eq_refl) as [Ht He]. split; [lia|exact He].
Qed.

Lemma approved_request_lowers_balance_witness :
  let user := teacher (Some FULL_TIME) (Some (day 0)) in
  let db := [permit "p1" VACATION_57 8 APPROVED] in
  let review :=
    {| review_status := APPROVED; review_rejection_reason := None |} in
  find_one "p2" db = None /\ (List.length db < 1000)%nat /\
  0 <= new_days_requested (request VACATION_57 5) /\
  find_user (user_id user) [admin; user] = Some user /\
  day 1826 <= day 1827 /\
  exists created db1 reviewed db2 shown shown',
    create_permit (day 1826) "p2" (request VACATION_57 5) user db
    = Ok (created, db1) /\
    review_permit (day 1827) "p2" review admin db1 = Ok (reviewed, db2) /\
    get_teacher_days (day 1827) (user_id user) user [admin; user] db
    = Ok shown /\
    get_teacher_days (day 1827) (user_id user) user [admin; user] db2
    = Ok shown' /\
    total_vacation shown' = total_vacation shown - 5.
Proof.
  intros user db review.
  assert (Hlen : (List.length db < 1000)%nat) by (vm_compute; repeat constructor).
  assert (Hdays : 0 <= new_days_requested (request VACATION_57 5))
    by (vm_compute; discriminate).
  assert (Hlater : day 1826 <= day 1827) by (vm_compute; discriminate).
  split; [reflexivity|]. split; [exact Hlen|]. split; [exact Hdays|].
  split; [reflexivity|]. split; [exact Hlater|].
  destruct (create_permit (day 1826) "p2" (request VACATION_57 5) user db)
    as [[created db1]|e] eqn:Hcreate;
    [|vm_compute in Hcreate; discriminate Hcreate].
  destruct (review_permit (day 1827) "p2" review admin db1)
    as [[reviewed db2]|e] eqn:Hreview.
  - destruct (approved_request_lowers_balance (day 1826) (day 1827) (day 1827)
                "p2" (request VACATION_57 5) review user admin [admin; user]
                db created db1 reviewed db2 Hcreate eq_refl Hlen Hdays
                eq_refl Hreview eq_refl Hlater)
      as [shown [shown' [Hshown [Hshown' [Hvacation _]]]]].
    exists created, db1, reviewed, db2, shown, shown'.
    split; [reflexivity|]. split; [exact Hreview|]. split; [exact Hshown|].
    split; [exact Hshown'|]. exact (proj1 (Hvacation eq_refl)).
  - exfalso. vm_compute in Hcreate. injection Hcreate as <- <-.
    vm_compute in Hreview. discriminate Hreview.
Defined.
